(** * Fingerprint coordinator (aidl/fingerprint/Fingerprint.cpp)

    A shallow embedding of the AIDL fingerprint service of
    hardware_xiaomi: backend discovery ([openHal] and the constructor
    loop), teardown, the static [notify] trampoline, [getSensorProps]
    and [createSession].

    The C++ code mutates one process-wide pointer ([sInstance]), the
    fields of the [Fingerprint] object and shared [Session] objects, and
    it calls into collaborators that live outside this file (the legacy
    HAL, the UDFPS handler factory, [Session], the logger).  The model
    threads a [World] (the static pointer and the two object stores)
    through a small monad whose outcomes also record the calls made to
    the collaborators, a [CHECK] failure, or a null/dangling
    dereference. *)

From stdpp Require Import base option list strings gmap.
From Stdlib Require Import ZArith Lia.

Local Open Scope string_scope.
Local Open Scope list_scope.
Local Open Scope Z_scope.

(** ** Data of the collaborating headers *)

Abbreviation addr := nat (only parsing).

(** [fingerprint_device_t]: the two function pointers the coordinator
    calls are represented by the status each returns when called on this
    device. *)
Record fingerprint_device_t := {
  device_id : nat;
  set_notify : Z;
  common_close : Z;
}.

(** [hw_module_methods_t::open]: a null function pointer is [None];
    otherwise the status returned and the value left in the [device]
    out-parameter (which starts as [nullptr]). *)
Record hw_module_methods_t := {
  open : option (Z * option fingerprint_device_t);
}.

Record hw_module_t := {
  methods : option hw_module_methods_t;
}.

(** [UdfpsHandler]: only its identity matters here. *)
Record UdfpsHandler := { handler_id : nat }.

(** [UdfpsHandlerFactory::create] returns a handler or [nullptr]. *)
Record UdfpsHandlerFactory := {
  create : option UdfpsHandler;
}.

Record AIBinder := { binder_id : nat }.

(** [ISessionCallback]: only [asBinder] is used here. *)
Record ISessionCallback := { asBinder : AIBinder }.

(** [fingerprint_msg_t]: the payload is only passed on. *)
Record fingerprint_msg_t := { msg_type : Z; msg_data : list Z }.

(** [LockoutTracker]: an opaque value handed to each session. *)
Record LockoutTracker := { lockout_state : nat }.

Inductive FingerprintSensorType :=
| UNKNOWN
| REAR
| UNDER_DISPLAY_ULTRASONIC
| UNDER_DISPLAY_OPTICAL
| POWER_BUTTON
| HOME_BUTTON.

Inductive SensorStrength := CONVENIENCE | WEAK | STRONG.

Record ComponentInfo := {
  componentId : string;
  hardwareVersion : string;
  firmwareVersion : string;
  serialNumber : string;
  softwareVersion : string;
}.

Record CommonProps := {
  sensorId : Z;
  sensorStrength : SensorStrength;
  maxEnrollmentsPerUser : Z;
  componentInfo : list ComponentInfo;
}.

Record SensorLocation := {
  sensorLocationX : Z;
  sensorLocationY : Z;
  sensorRadius : Z;
}.

Record TouchDetectionParameters := { minOverlap : Z }.

Record SensorProps := {
  commonProps : CommonProps;
  sensorType : FingerprintSensorType;
  sensorLocations : list SensorLocation;
  supportsNavigationGestures : bool;
  supportsDetectInteraction : bool;
  halHandlesDisplayTouches : bool;
  halControlsIllumination : bool;
  touchDetectionParameters : option TouchDetectionParameters;
}.

Inductive ScopedAStatus :=
| STATUS_OK
| STATUS_EXCEPTION (code : Z) (message : string).

(** Everything the translation unit takes from outside: the legacy
    hardware library, the build flags and the headers that are not part
    of this file. *)
Record Platform := {
  FINGERPRINT_HARDWARE_MODULE_ID : string;
  (** status and final value of the [hw_mdl] out-parameter *)
  hw_get_module_by_class : string → string → Z * option hw_module_t;
  USES_UDFPS_SENSOR : bool;
  UDFPS_LOCATION_X : Z;
  UDFPS_LOCATION_Y : Z;
  UDFPS_RADIUS : Z;
  getUdfpsHandlerFactory : option UdfpsHandlerFactory;
  (** the value of a default-constructed [SensorLocation] *)
  SensorLocation_init : SensorLocation;
  (** the value of a default-constructed [LockoutTracker] *)
  LockoutTracker_init : LockoutTracker;
}.

(** Conversion of an integer constant to [int32_t]. *)
Definition to_int32 (z : Z) : Z := (z + 2 ^ 31) `mod` 2 ^ 32 - 2 ^ 31.

(** ** The translation unit's own data *)

Record fingerprint_hal_t := { class_name : string }.

Definition kModules : list fingerprint_hal_t :=
  [ {| class_name := "fpc" |};
    {| class_name := "fpc_fod" |};
    {| class_name := "goodix" |};
    {| class_name := "goodix_fod" |};
    {| class_name := "goodix_fod6" |};
    {| class_name := "silead" |};
    {| class_name := "syna" |} ].

Definition SENSOR_ID : Z := 0.
Definition SENSOR_STRENGTH : SensorStrength := STRONG.
Definition MAX_ENROLLMENTS_PER_USER : Z := 7.
Definition SUPPORTS_NAVIGATION_GESTURES : bool := false.
Definition HW_COMPONENT_ID : string := "fingerprintSensor".
Definition HW_VERSION : string := "vendor/model/revision".
Definition FW_VERSION : string := "1.01".
Definition SERIAL_NUMBER : string := "00000001".
Definition SW_COMPONENT_ID : string := "matchingAlgorithm".
Definition SW_VERSION : string := "vendor/version/revision".

(** Modelled from the spec: [Session] is declared in Session.h, which is
    not part of this file.  A session is "bound to the DeviceHandle, the
    optional platform display handler, the userId, the callback, and the
    lockout-policy collaborator", it "reports itself closed" through
    [isClosed], and it is open when it has just been created. *)
Record Session := {
  session_device : option fingerprint_device_t;
  session_udfpsHandler : option UdfpsHandler;
  session_userId : Z;
  session_cb : option ISessionCallback;
  session_lockoutTracker : LockoutTracker;
  isClosed : bool;
}.

(** The members of [class Fingerprint]; [mSession] is a shared pointer
    into the session store. *)
Record Fingerprint := {
  mSession : option addr;
  mLockoutTracker : LockoutTracker;
  mSensorType : FingerprintSensorType;
  mMaxEnrollmentsPerUser : Z;
  mSupportsGestures : bool;
  mDevice : option fingerprint_device_t;
  mUdfpsHandlerFactory : option UdfpsHandlerFactory;
  mUdfpsHandler : option UdfpsHandler;
}.

Definition set_mSession (s : option addr) (f : Fingerprint) : Fingerprint :=
  {| mSession := s; mLockoutTracker := mLockoutTracker f;
     mSensorType := mSensorType f;
     mMaxEnrollmentsPerUser := mMaxEnrollmentsPerUser f;
     mSupportsGestures := mSupportsGestures f; mDevice := mDevice f;
     mUdfpsHandlerFactory := mUdfpsHandlerFactory f;
     mUdfpsHandler := mUdfpsHandler f |}.

Definition set_mDevice (d : option fingerprint_device_t) (f : Fingerprint)
  : Fingerprint :=
  {| mSession := mSession f; mLockoutTracker := mLockoutTracker f;
     mSensorType := mSensorType f;
     mMaxEnrollmentsPerUser := mMaxEnrollmentsPerUser f;
     mSupportsGestures := mSupportsGestures f; mDevice := d;
     mUdfpsHandlerFactory := mUdfpsHandlerFactory f;
     mUdfpsHandler := mUdfpsHandler f |}.

Definition set_mUdfpsHandlerFactory (x : option UdfpsHandlerFactory)
  (f : Fingerprint) : Fingerprint :=
  {| mSession := mSession f; mLockoutTracker := mLockoutTracker f;
     mSensorType := mSensorType f;
     mMaxEnrollmentsPerUser := mMaxEnrollmentsPerUser f;
     mSupportsGestures := mSupportsGestures f; mDevice := mDevice f;
     mUdfpsHandlerFactory := x;
     mUdfpsHandler := mUdfpsHandler f |}.

Definition set_mUdfpsHandler (x : option UdfpsHandler) (f : Fingerprint)
  : Fingerprint :=
  {| mSession := mSession f; mLockoutTracker := mLockoutTracker f;
     mSensorType := mSensorType f;
     mMaxEnrollmentsPerUser := mMaxEnrollmentsPerUser f;
     mSupportsGestures := mSupportsGestures f; mDevice := mDevice f;
     mUdfpsHandlerFactory := mUdfpsHandlerFactory f;
     mUdfpsHandler := x |}.

(** ** Process state *)

Record World := {
  (** [static Fingerprint* sInstance] *)
  sInstance : option addr;
  (** the [Fingerprint] objects whose lifetime has not ended *)
  objects : gmap nat Fingerprint;
  (** the [Session] objects behind the shared pointers *)
  sessions : gmap nat Session;
}.

Definition set_sInstance (p : option addr) (w : World) : World :=
  {| sInstance := p; objects := objects w; sessions := sessions w |}.

Definition set_objects (o : gmap nat Fingerprint) (w : World) : World :=
  {| sInstance := sInstance w; objects := o; sessions := sessions w |}.

Definition set_sessions (s : gmap nat Session) (w : World) : World :=
  {| sInstance := sInstance w; objects := objects w; sessions := s |}.

(** ** Calls that leave the translation unit *)

Inductive LogPriority := VERBOSE | DEBUG | INFO | ERROR | FATAL.

Inductive LogArg :=
| ArgString (s : string)
| ArgInt (z : Z)
| ArgSensorType (t : FingerprintSensorType)
| ArgSensorLocation (l : SensorLocation).

Inductive Event :=
| ALOG (prio : LogPriority) (fmt : string) (args : list LogArg)
| Call_hw_get_module_by_class (id cls : string)
| Call_open (m : hw_module_t)
| Call_set_notify (d : fingerprint_device_t)
| Call_close (d : fingerprint_device_t)
| Call_UdfpsHandlerFactory_create (f : UdfpsHandlerFactory)
| Call_UdfpsHandlerFactory_destroy (f : UdfpsHandlerFactory) (h : UdfpsHandler)
| Call_UdfpsHandler_init (h : UdfpsHandler) (d : option fingerprint_device_t)
| Call_Session_notify (s : addr) (msg : fingerprint_msg_t)
| Call_Session_linkToDeath (s : addr) (b : AIBinder).

(** ** The monad *)

Inductive Outcome (A : Type) :=
| Ret (a : A) (w : World) (t : list Event)
  (** normal return *)
| Abort (msg : string) (w : World) (t : list Event)
  (** a failed [CHECK]: the process is aborted in world [w] *)
| Fault (w : World) (t : list Event).
  (** a null or dangling pointer was dereferenced *)

Arguments Ret {A} a w t.
Arguments Abort {A} msg w t.
Arguments Fault {A} w t.

Definition M (A : Type) : Type := World → Outcome A.

Definition prepend {A} (t : list Event) (o : Outcome A) : Outcome A :=
  match o with
  | Ret a w t' => Ret a w (t ++ t')
  | Abort msg w t' => Abort msg w (t ++ t')
  | Fault w t' => Fault w (t ++ t')
  end.

Definition world_of {A} (o : Outcome A) : World :=
  match o with Ret _ w _ | Abort _ w _ | Fault w _ => w end.

Definition trace_of {A} (o : Outcome A) : list Event :=
  match o with Ret _ _ t | Abort _ _ t | Fault _ t => t end.

#[global] Instance M_ret : MRet M := λ A a w, Ret a w [].

#[global] Instance M_bind : MBind M := λ A B k m w,
  match m w with
  | Ret a w' t => prepend t (k a w')
  | Abort msg w' t => Abort msg w' t
  | Fault w' t => Fault w' t
  end.

Definition emit (e : Event) : M unit := λ w, Ret () w [e].
Definition fault {A} : M A := λ w, Fault w [].
Definition getWorld : M World := λ w, Ret w w [].
Definition putWorld (w : World) : M unit := λ _, Ret () w [].

(** [CHECK(cond) << msg] *)
Definition CHECK (cond : bool) (msg : string) : M unit := λ w,
  if cond then Ret () w []
  else Abort msg w [ALOG FATAL msg []].

(** Dereference of a raw pointer that may be null. *)
Definition deref {A} (p : option A) : M A :=
  match p with Some a => mret a | None => fault end.

(** [*this] *)
Definition load (this : addr) : M Fingerprint :=
  w ← getWorld; deref (objects w !! this).

Definition store (this : addr) (f : Fingerprint) : M unit :=
  w ← getWorld; putWorld (set_objects (<[this := f]> (objects w)) w).

(** member assignment [this->field = v] *)
Definition assign (this : addr) (upd : Fingerprint → Fingerprint) : M unit :=
  f ← load this; store this (upd f).

Definition loadSession (s : addr) : M Session :=
  w ← getWorld; deref (sessions w !! s).

Definition ALOGV (fmt : string) (args : list LogArg) : M unit :=
  emit (ALOG VERBOSE fmt args).
Definition ALOGD (fmt : string) (args : list LogArg) : M unit :=
  emit (ALOG DEBUG fmt args).
Definition ALOGI (fmt : string) (args : list LogArg) : M unit :=
  emit (ALOG INFO fmt args).
Definition ALOGE (fmt : string) (args : list LogArg) : M unit :=
  emit (ALOG ERROR fmt args).

(** ** Backend discovery *)

(** [Fingerprint::openHal] *)
Definition openHal (p : Platform) (cls : string)
  : M (option fingerprint_device_t) :=
  ALOGD "Opening fingerprint hal library..." [];;
  emit (Call_hw_get_module_by_class (FINGERPRINT_HARDWARE_MODULE_ID p) cls);;
  let '(status, hw_mdl) :=
    hw_get_module_by_class p (FINGERPRINT_HARDWARE_MODULE_ID p) cls in
  if bool_decide (status ≠ 0) then
    ALOGE "Can't open fingerprint HW Module" [];; mret None
  else
    match hw_mdl with
    | None => ALOGE "No valid fingerprint module" [];; mret None
    | Some module =>
        meths ← deref (methods module);
        match open meths with
        | None => ALOGE "No valid open method" [];; mret None
        | Some (err, device) =>
            emit (Call_open module);;
            if bool_decide (err ≠ 0) then
              ALOGE "Can't open fingerprint methods" [];; mret None
            else
              fp_device ← deref device;
              emit (Call_set_notify fp_device);;
              if bool_decide (set_notify fp_device ≠ 0) then
                ALOGE "Can't register fingerprint module callback" [];;
                mret None
              else mret (Some fp_device)
        end
    end.

(** The [for (auto& [class_name] : kModules)] loop of the constructor. *)
Fixpoint open_modules (p : Platform) (this : addr)
  (mods : list fingerprint_hal_t) : M unit :=
  match mods with
  | [] => mret ()
  | m :: rest =>
      d ← openHal p (class_name m);
      assign this (set_mDevice d);;
      f ← load this;
      match mDevice f with
      | None =>
          ALOGE "Can't open HAL module, class %s" [ArgString (class_name m)];;
          open_modules p this rest
      | Some _ =>
          ALOGI "Opened fingerprint HAL, class %s" [ArgString (class_name m)]
      end
  end.

(** The [#ifdef USES_UDFPS_SENSOR] tail of the constructor. *)
Definition init_udfps (p : Platform) (this : addr) : M unit :=
  ALOGI "UNDER_DISPLAY_OPTICAL selected" [];;
  assign this (set_mUdfpsHandlerFactory (getUdfpsHandlerFactory p));;
  f ← load this;
  match mUdfpsHandlerFactory f with
  | None => ALOGE "Can't get UdfpsHandlerFactory" []
  | Some factory =>
      emit (Call_UdfpsHandlerFactory_create factory);;
      assign this (set_mUdfpsHandler (create factory));;
      f ← load this;
      match mUdfpsHandler f with
      | None => ALOGE "Can't create UdfpsHandler" []
      | Some h => emit (Call_UdfpsHandler_init h (mDevice f))
      end
  end.

(** The member initialisers of the constructor ([mSession] and
    [mLockoutTracker] are default-constructed). *)
Definition member_init (p : Platform) : Fingerprint :=
  {| mSession := None;
     mLockoutTracker := LockoutTracker_init p;
     mSensorType :=
       if USES_UDFPS_SENSOR p then UNDER_DISPLAY_OPTICAL else UNKNOWN;
     mMaxEnrollmentsPerUser := MAX_ENROLLMENTS_PER_USER;
     mSupportsGestures := false;
     mDevice := None;
     mUdfpsHandlerFactory := None;
     mUdfpsHandler := None |}.

(** [Fingerprint::Fingerprint], constructing the object at [this]. *)
Definition Fingerprint_ctor (p : Platform) (this : addr) : M unit :=
  store this (member_init p);;
  w ← getWorld;
  putWorld (set_sInstance (Some this) w);;
  open_modules p this kModules;;
  f ← load this;
  match mDevice f with
  | None => ALOGE "Can't open any HAL module" []
  | Some _ => mret ()
  end;;
  if USES_UDFPS_SENSOR p then init_udfps p this else mret ().

(** ** Teardown *)

(** The body of [Fingerprint::~Fingerprint]. *)
Definition Fingerprint_dtor_body (this : addr) : M unit :=
  ALOGV "~Fingerprint()" [];;
  f ← load this;
  match mUdfpsHandler f with
  | Some h =>
      factory ← deref (mUdfpsHandlerFactory f);
      emit (Call_UdfpsHandlerFactory_destroy factory h)
  | None => mret ()
  end;;
  f ← load this;
  match mDevice f with
  | None => ALOGE "No valid device" []
  | Some d =>
      emit (Call_close d);;
      let err := common_close d in
      if bool_decide (0 ≠ err) then
        ALOGE "Can't close fingerprint module, error: %d" [ArgInt err]
      else assign this (set_mDevice None)
  end.

(** The object's lifetime ends when the destructor body has run. *)
Definition end_lifetime (this : addr) : M unit :=
  w ← getWorld; putWorld (set_objects (delete this (objects w)) w).

Definition Fingerprint_dtor (this : addr) : M unit :=
  Fingerprint_dtor_body this;; end_lifetime this.

(** ** Notification routing *)

Definition drop_notification : M unit :=
  ALOGE "Receiving callbacks before a session is opened." [].

(** [Fingerprint::notify] (static) *)
Definition notify (msg : fingerprint_msg_t) : M unit :=
  w ← getWorld;
  let thisPtr := sInstance w in
  match thisPtr with
  | None => drop_notification
  | Some a =>
      f ← load a;
      match mSession f with
      | None => drop_notification
      | Some s =>
          session ← loadSession s;
          if isClosed session then drop_notification
          else emit (Call_Session_notify s msg)
      end
  end.

(** ** Sensor properties *)

(** The locals [x], [y], [r] of [getSensorProps]: [-1] unless the build
    defines [USES_UDFPS_SENSOR]. *)
Definition location_x (p : Platform) : Z :=
  if USES_UDFPS_SENSOR p then to_int32 (UDFPS_LOCATION_X p) else -1.
Definition location_y (p : Platform) : Z :=
  if USES_UDFPS_SENSOR p then to_int32 (UDFPS_LOCATION_Y p) else -1.
Definition location_r (p : Platform) : Z :=
  if USES_UDFPS_SENSOR p then to_int32 (UDFPS_RADIUS p) else -1.

(** [x >= 0 && y >= 0 && r >= 0] *)
Definition location_configured (p : Platform) : bool :=
  (location_x p >=? 0) && (location_y p >=? 0) && (location_r p >=? 0).

(** [Fingerprint::getSensorProps]; the out-parameter is returned. *)
Definition getSensorProps (p : Platform) (this : addr)
  : M (ScopedAStatus * list SensorProps) :=
  let componentInfo :=
    [ {| componentId := HW_COMPONENT_ID; hardwareVersion := HW_VERSION;
         firmwareVersion := FW_VERSION; serialNumber := SERIAL_NUMBER;
         softwareVersion := "" |};
      {| componentId := SW_COMPONENT_ID; hardwareVersion := "";
         firmwareVersion := ""; serialNumber := "";
         softwareVersion := SW_VERSION |} ] in
  f ← load this;
  let commonProps :=
    {| sensorId := SENSOR_ID; sensorStrength := SENSOR_STRENGTH;
       maxEnrollmentsPerUser := mMaxEnrollmentsPerUser f;
       componentInfo := componentInfo |} in
  let sensorLocation := SensorLocation_init p in
  let x := location_x p in
  let y := location_y p in
  let r := location_r p in
  sensorLocation ←
    (if location_configured p then
       mret {| sensorLocationX := x; sensorLocationY := y;
               sensorRadius := r |}
     else
       ALOGE "Failed to get sensor location: %d, %d, %d"
         [ArgInt x; ArgInt y; ArgInt r];;
       mret sensorLocation);
  f ← load this;
  ALOGI "Sensor type: %s, location: %s"
    [ArgSensorType (mSensorType f); ArgSensorLocation sensorLocation];;
  mret (STATUS_OK,
        [ {| commonProps := commonProps;
             sensorType := mSensorType f;
             sensorLocations := [sensorLocation];
             supportsNavigationGestures := mSupportsGestures f;
             supportsDetectInteraction := false;
             halHandlesDisplayTouches := false;
             halControlsIllumination := false;
             touchDetectionParameters := None |} ]).

(** ** Session creation *)

(** [SharedRefBase::make<Session>(...)]: a new shared object. *)
Definition make_Session (device : option fingerprint_device_t)
  (udfpsHandler : option UdfpsHandler) (userId : Z)
  (cb : option ISessionCallback) (lockoutTracker : LockoutTracker) : M addr :=
  w ← getWorld;
  let s := fresh (dom (sessions w)) in
  putWorld
    (set_sessions
       (<[s := {| session_device := device;
                  session_udfpsHandler := udfpsHandler;
                  session_userId := userId;
                  session_cb := cb;
                  session_lockoutTracker := lockoutTracker;
                  isClosed := false |}]> (sessions w)) w);;
  mret s.

(** [mSession == nullptr || mSession->isClosed()] *)
Definition no_open_session (this : addr) : M bool :=
  f ← load this;
  match mSession f with
  | None => mret true
  | Some s => session ← loadSession s; mret (isClosed session)
  end.

(** [Fingerprint::createSession]; the out-parameter is returned. *)
Definition createSession (this : addr) (sensorId userId : Z)
  (cb : option ISessionCallback) : M (ScopedAStatus * addr) :=
  ok ← no_open_session this;
  CHECK ok "Open session already exists!";;
  f ← load this;
  s ← make_Session (mDevice f) (mUdfpsHandler f) userId cb (mLockoutTracker f);
  assign this (set_mSession (Some s));;
  f ← load this;
  out ← deref (mSession f);
  c ← deref cb;
  emit (Call_Session_linkToDeath out (asBinder c));;
  mret (STATUS_OK, out).

(** ** Vocabulary of the statements *)

Definition is_log (e : Event) : Prop :=
  match e with ALOG _ _ _ => True | _ => False end.

(** What [notify] emits when it drops an event. *)
Definition dropped : list Event :=
  [ALOG ERROR "Receiving callbacks before a session is opened." []].

(** The session a freshly made [Session] object is. *)
Definition new_Session (f : Fingerprint) (userId : Z)
  (cb : option ISessionCallback) : Session :=
  {| session_device := mDevice f;
     session_udfpsHandler := mUdfpsHandler f;
     session_userId := userId;
     session_cb := cb;
     session_lockoutTracker := mLockoutTracker f;
     isClosed := false |}.

(** The world [createSession] leaves when it has installed session [s]. *)
Definition session_installed (this : addr) (f : Fingerprint) (s : addr)
  (userId : Z) (cb : option ISessionCallback) (w : World) : World :=
  {| sInstance := sInstance w;
     objects := <[this := set_mSession (Some s) f]> (objects w);
     sessions := <[s := new_Session f userId cb]> (sessions w) |}.

(** The devices on which [close] was called, in order. *)
Fixpoint close_calls (t : list Event) : list fingerprint_device_t :=
  match t with
  | [] => []
  | Call_close d :: t => d :: close_calls t
  | _ :: t => close_calls t
  end.

(** The classes for which the hardware library was asked, in order. *)
Fixpoint attempted (t : list Event) : list string :=
  match t with
  | [] => []
  | Call_hw_get_module_by_class _ cls :: t => cls :: attempted t
  | _ :: t => attempted t
  end.

(** What the destructor emits for the display handler. *)
Definition udfps_teardown (f : Fingerprint) : list Event :=
  match mUdfpsHandler f, mUdfpsHandlerFactory f with
  | Some h, Some factory => [Call_UdfpsHandlerFactory_destroy factory h]
  | _, _ => []
  end.

(** The world in which [this->mDevice] has been assigned [d]. *)
Definition device_assigned (this : addr) (f : Fingerprint)
  (d : option fingerprint_device_t) (w : World) : World :=
  set_objects (<[this := set_mDevice d f]> (objects w)) w.

(** The world in which construction at [this] runs its loop. *)
Definition under_construction (p : Platform) (this : addr) (w : World)
  : World :=
  set_sInstance (Some this)
    (set_objects (<[this := member_init p]> (objects w)) w).

(** An action that never writes [sInstance], however it ends. *)
Definition keeps_sInstance {A} (m : M A) : Prop :=
  ∀ w, sInstance (world_of (m w)) = sInstance w.

(** Resolution, open and callback registration all succeed for class
    [cls], yielding device [d]. *)
Definition candidate_opens (p : Platform) (cls : string)
  (d : fingerprint_device_t) : Prop :=
  ∃ module meths,
    hw_get_module_by_class p (FINGERPRINT_HARDWARE_MODULE_ID p) cls
      = (0, Some module) ∧
    methods module = Some meths ∧
    open meths = Some (0, Some d) ∧
    set_notify d = 0.

(** One of resolution, open or callback registration fails for class
    [cls]: each constructor is one of the five tests of [openHal].  A
    module whose [methods] pointer is null, or whose [open] returns 0
    without setting the device, satisfies neither this predicate nor
    [candidate_opens]: [openHal] dereferences the null pointer. *)
Inductive candidate_fails (p : Platform) (cls : string) : Prop :=
| resolution_fails status hw_mdl :
    hw_get_module_by_class p (FINGERPRINT_HARDWARE_MODULE_ID p) cls
      = (status, hw_mdl) →
    status ≠ 0 → candidate_fails p cls
| module_missing :
    hw_get_module_by_class p (FINGERPRINT_HARDWARE_MODULE_ID p) cls
      = (0, None) →
    candidate_fails p cls
| open_method_missing module meths :
    hw_get_module_by_class p (FINGERPRINT_HARDWARE_MODULE_ID p) cls
      = (0, Some module) →
    methods module = Some meths → open meths = None →
    candidate_fails p cls
| open_fails module meths err device :
    hw_get_module_by_class p (FINGERPRINT_HARDWARE_MODULE_ID p) cls
      = (0, Some module) →
    methods module = Some meths → open meths = Some (err, device) →
    err ≠ 0 → candidate_fails p cls
| registration_fails module meths d :
    hw_get_module_by_class p (FINGERPRINT_HARDWARE_MODULE_ID p) cls
      = (0, Some module) →
    methods module = Some meths → open meths = Some (0, Some d) →
    set_notify d ≠ 0 → candidate_fails p cls.

(** ** Concrete platforms and worlds used by the examples *)

Module Sample.

Definition device (n : nat) (notify_status close_status : Z)
  : fingerprint_device_t :=
  {| device_id := n; set_notify := notify_status;
     common_close := close_status |}.

(** A module whose [open] hands out device [d]. *)
Definition module_opening (d : fingerprint_device_t) : hw_module_t :=
  {| methods := Some {| open := Some (0, Some d) |} |}.

(** A module whose [open] fails with [-EINVAL]. *)
Definition module_failing : hw_module_t :=
  {| methods := Some {| open := Some (-22, None) |} |}.

Definition platform (hal : string → Z * option hw_module_t)
  (udfps : bool) (x y r : Z) : Platform :=
  {| FINGERPRINT_HARDWARE_MODULE_ID := "fingerprint";
     hw_get_module_by_class := λ _ cls, hal cls;
     USES_UDFPS_SENSOR := udfps;
     UDFPS_LOCATION_X := x;
     UDFPS_LOCATION_Y := y;
     UDFPS_RADIUS := r;
     getUdfpsHandlerFactory :=
       Some {| create := Some {| handler_id := 3 |} |};
     SensorLocation_init :=
       {| sensorLocationX := 0; sensorLocationY := 0; sensorRadius := 0 |};
     LockoutTracker_init := {| lockout_state := 0 |} |}.

(** No library is installed for any class: [-ENOENT]. *)
Definition hal_none (cls : string) : Z * option hw_module_t := (-2, None).

(** "fpc" resolves but fails to open, "fpc_fod" opens device 1. *)
Definition hal_second (cls : string) : Z * option hw_module_t :=
  if String.eqb cls "fpc" then (0, Some module_failing)
  else if String.eqb cls "fpc_fod" then
    (0, Some (module_opening (device 1 0 0)))
  else if String.eqb cls "goodix" then
    (0, Some (module_opening (device 2 0 0)))
  else (-2, None).

Definition fingerprint (s : option addr) (d : option fingerprint_device_t)
  : Fingerprint :=
  {| mSession := s; mLockoutTracker := {| lockout_state := 0 |};
     mSensorType := UNKNOWN;
     mMaxEnrollmentsPerUser := MAX_ENROLLMENTS_PER_USER;
     mSupportsGestures := false; mDevice := d;
     mUdfpsHandlerFactory := None; mUdfpsHandler := None |}.

Definition session (d : option fingerprint_device_t) (closed : bool)
  : Session :=
  {| session_device := d; session_udfpsHandler := None;
     session_userId := 10; session_cb := None;
     session_lockoutTracker := {| lockout_state := 0 |};
     isClosed := closed |}.

Definition empty_world : World :=
  {| sInstance := None; objects := ∅; sessions := ∅ |}.

(** One coordinator at address 1, registered in [sInstance]. *)
Definition world_with (f : Fingerprint) (ss : gmap nat Session) : World :=
  {| sInstance := Some 1%nat; objects := {[ 1%nat := f ]}; sessions := ss |}.

(** A coordinator without a device and without a session. *)
Definition idle : World := world_with (fingerprint None None) ∅.

(** A coordinator whose session 4 is closed, respectively open. *)
Definition with_closed_session : World :=
  world_with (fingerprint (Some 4%nat) None) {[ 4%nat := session None true ]}.
Definition with_open_session : World :=
  world_with (fingerprint (Some 4%nat) None) {[ 4%nat := session None false ]}.

(** A coordinator holding a device whose [close] returns [-EBUSY]. *)
Definition busy_device : fingerprint_device_t := device 1 0 (-16).

(** A coordinator holding a device whose [close] succeeds. *)
Definition good_device : fingerprint_device_t := device 1 0 0.
Definition with_good_device : World :=
  world_with (fingerprint None (Some good_device)) ∅.


(** A build without UDFPS where the second candidate is the first to
    open; the third would open as well. *)
Definition second_opens : Platform := platform hal_second false 0 0 0.

Definition callback : option ISessionCallback :=
  Some {| asBinder := {| binder_id := 9 |} |}.

Definition message : fingerprint_msg_t :=
  {| msg_type := 3; msg_data := [7; 0] |}.

End Sample.

(** ** The testable properties as the specification words them

    These follow the specification, not the code; they are compared with
    the code below. *)




(** ** Vocabulary of the further properties *)

(** An action whose final world, however it ends, is related to its
    initial world by [R]. *)
Definition preserves (R : World → World → Prop) {A} (m : M A) : Prop :=
  ∀ w, R w (world_of (m w)).

(** The outcome is a normal return. *)
Definition returns {A} (o : Outcome A) : bool :=
  match o with Ret _ _ _ => true | _ => false end.

(** An action all of whose calls outside satisfy [P], however it ends. *)
Definition emits_only (P : Event → Prop) {A} (m : M A) : Prop :=
  ∀ w, Forall P (trace_of (m w)).

Definition not_close (e : Event) : Prop :=
  match e with Call_close _ => False | _ => True end.

(** Calls to the display handler or its factory. *)
Definition not_udfps (e : Event) : Prop :=
  match e with
  | Call_UdfpsHandlerFactory_create _
  | Call_UdfpsHandlerFactory_destroy _ _
  | Call_UdfpsHandler_init _ _ => False
  | _ => True
  end.

(** Every coordinator other than the one at [this] is as it was. *)
Definition others_kept (this : addr) (w w' : World) : Prop :=
  ∀ a, a ≠ this → objects w' !! a = objects w !! a.

(** The verdict of one [openHal] attempt. *)
Inductive Probe :=
| Opened (d : fingerprint_device_t)
| NotOpened
| NullDeref.

(** The verdict for class [cls], read off the platform's answers in the
    order in which [openHal] asks for them. *)
Definition probe (p : Platform) (cls : string) : Probe :=
  let '(status, hw_mdl) :=
    hw_get_module_by_class p (FINGERPRINT_HARDWARE_MODULE_ID p) cls in
  if bool_decide (status ≠ 0) then NotOpened
  else
    match hw_mdl with
    | None => NotOpened
    | Some module =>
        match methods module with
        | None => NullDeref
        | Some meths =>
            match open meths with
            | None => NotOpened
            | Some (err, device) =>
                if bool_decide (err ≠ 0) then NotOpened
                else
                  match device with
                  | None => NullDeref
                  | Some d =>
                      if bool_decide (set_notify d ≠ 0) then NotOpened
                      else Opened d
                  end
            end
        end
    end.

(** The first verdict in list order that is not [NotOpened]. *)
Fixpoint discover (p : Platform) (mods : list fingerprint_hal_t) : Probe :=
  match mods with
  | [] => NotOpened
  | m :: rest =>
      match probe p (class_name m) with
      | NotOpened => discover p rest
      | verdict => verdict
      end
  end.

(** The classes up to and including the first whose verdict is not
    [NotOpened]. *)
Fixpoint tried (p : Platform) (mods : list fingerprint_hal_t) : list string :=
  match mods with
  | [] => []
  | m :: rest =>
      class_name m ::
      match probe p (class_name m) with
      | NotOpened => tried p rest
      | _ => []
      end
  end.

(** The members after the display-handler tail of the constructor. *)
Definition udfps_members (p : Platform) (f : Fingerprint) : Fingerprint :=
  match getUdfpsHandlerFactory p with
  | None => set_mUdfpsHandlerFactory None f
  | Some factory =>
      set_mUdfpsHandler (create factory)
        (set_mUdfpsHandlerFactory (Some factory) f)
  end.

(** What the display-handler tail emits when [mDevice] is [d]. *)
Definition udfps_trace (p : Platform) (d : option fingerprint_device_t)
  : list Event :=
  ALOG INFO "UNDER_DISPLAY_OPTICAL selected" [] ::
  match getUdfpsHandlerFactory p with
  | None => [ALOG ERROR "Can't get UdfpsHandlerFactory" []]
  | Some factory =>
      Call_UdfpsHandlerFactory_create factory ::
      match create factory with
      | None => [ALOG ERROR "Can't create UdfpsHandler" []]
      | Some h => [Call_UdfpsHandler_init h d]
      end
  end.

(** The coordinator the constructor leaves when discovery ended with
    device [d]. *)
Definition built (p : Platform) (d : option fingerprint_device_t)
  : Fingerprint :=
  if USES_UDFPS_SENSOR p then udfps_members p (set_mDevice d (member_init p))
  else set_mDevice d (member_init p).

Definition constructed (p : Platform) (this : addr)
  (d : option fingerprint_device_t) (w : World) : World :=
  {| sInstance := Some this;
     objects := <[this := built p d]> (objects w);
     sessions := sessions w |}.

(** What the constructor emits after its loop. *)
Definition construction_tail (p : Platform)
  (d : option fingerprint_device_t) : list Event :=
  match d with
  | None => [ALOG ERROR "Can't open any HAL module" []]
  | Some _ => []
  end ++
  (if USES_UDFPS_SENSOR p then udfps_trace p d else []).

(** * Properties *)

(** ** Running the monad *)

Lemma run_bind {A B} (m : M A) (k : A → M B) w :
  (m ≫= k) w =
  match m w with
  | Ret a w' t => prepend t (k a w')
  | Abort msg w' t => Abort msg w' t
  | Fault w' t => Fault w' t
  end.
Proof. reflexivity. Qed.

Lemma prepend_nil {A} (o : Outcome A) : prepend [] o = o.
Proof. by destruct o. Qed.

Lemma prepend_app {A} t1 t2 (o : Outcome A) :
  prepend t1 (prepend t2 o) = prepend (t1 ++ t2) o.
Proof. destruct o; simpl; by rewrite app_assoc. Qed.

Lemma world_of_prepend {A} t (o : Outcome A) :
  world_of (prepend t o) = world_of o.
Proof. by destruct o. Qed.

Lemma trace_of_prepend {A} t (o : Outcome A) :
  trace_of (prepend t o) = t ++ trace_of o.
Proof. by destruct o. Qed.

Lemma run_load this w f :
  objects w !! this = Some f → load this w = Ret f w [].
Proof. intros H. unfold load. rewrite run_bind. simpl. by rewrite H. Qed.

Lemma run_load_dangling this w :
  objects w !! this = None → load this w = Fault w [].
Proof. intros H. unfold load. rewrite run_bind. simpl. by rewrite H. Qed.

Lemma run_loadSession s w ss :
  sessions w !! s = Some ss → loadSession s w = Ret ss w [].
Proof. intros H. unfold loadSession. rewrite run_bind. simpl. by rewrite H. Qed.

Lemma run_store this f w :
  store this f w = Ret () (set_objects (<[this := f]> (objects w)) w) [].
Proof. reflexivity. Qed.

Lemma run_assign this upd w f :
  objects w !! this = Some f →
  assign this upd w =
  Ret () (set_objects (<[this := upd f]> (objects w)) w) [].
Proof.
  intros H. unfold assign. rewrite run_bind, (run_load _ _ _ H). reflexivity.
Qed.

Lemma lookup_set_objects this f w :
  objects (set_objects (<[this := f]> (objects w)) w) !! this = Some f.
Proof. simpl. apply lookup_insert_eq. Qed.

(** Sequencing of an action whose outcome is known. *)
Lemma run_seq {A B} (m : M A) (k : A → M B) w a w' t :
  m w = Ret a w' t → (m ≫= k) w = prepend t (k a w').
Proof. intros H. by rewrite run_bind, H. Qed.

Lemma run_emit_bind {B} e (k : () → M B) w :
  (emit e ≫= k) w = prepend [e] (k () w).
Proof. reflexivity. Qed.

Lemma run_ret_bind {A B} (a : A) (k : A → M B) w :
  ((mret a : M A) ≫= k) w = k a w.
Proof. rewrite run_bind. cbn. apply prepend_nil. Qed.

Lemma run_ret {A} (a : A) w : (mret a : M A) w = Ret a w [].
Proof. reflexivity. Qed.

Ltac msimpl :=
  unfold ALOGV, ALOGD, ALOGI, ALOGE;
  repeat first
    [ progress cbn [deref prepend app]
    | rewrite run_emit_bind; cbn beta iota
    | rewrite run_ret_bind; cbn beta iota
    | rewrite run_ret
    | rewrite prepend_app ].

(** ** Sensor properties *)

Lemma getSensorProps_run p this w f :
  objects w !! this = Some f →
  getSensorProps p this w =
  let loc :=
    if location_configured p then
      {| sensorLocationX := location_x p; sensorLocationY := location_y p;
         sensorRadius := location_r p |}
    else SensorLocation_init p in
  Ret (STATUS_OK,
       [ {| commonProps :=
              {| sensorId := SENSOR_ID; sensorStrength := SENSOR_STRENGTH;
                 maxEnrollmentsPerUser := mMaxEnrollmentsPerUser f;
                 componentInfo :=
                   [ {| componentId := HW_COMPONENT_ID;
                        hardwareVersion := HW_VERSION;
                        firmwareVersion := FW_VERSION;
                        serialNumber := SERIAL_NUMBER;
                        softwareVersion := "" |};
                     {| componentId := SW_COMPONENT_ID;
                        hardwareVersion := ""; firmwareVersion := "";
                        serialNumber := ""; softwareVersion := SW_VERSION |} ]
              |};
            sensorType := mSensorType f;
            sensorLocations := [loc];
            supportsNavigationGestures := mSupportsGestures f;
            supportsDetectInteraction := false;
            halHandlesDisplayTouches := false;
            halControlsIllumination := false;
            touchDetectionParameters := None |} ])
      w
      ((if location_configured p then []
        else [ALOG ERROR "Failed to get sensor location: %d, %d, %d"
                [ArgInt (location_x p); ArgInt (location_y p);
                 ArgInt (location_r p)]]) ++
       [ALOG INFO "Sensor type: %s, location: %s"
          [ArgSensorType (mSensorType f); ArgSensorLocation loc]]).
Proof.
  intros H. unfold getSensorProps.
  rewrite run_bind, (run_load _ _ _ H). cbn [prepend].
  destruct (location_configured p); cbn zeta;
    rewrite !run_bind; cbn [mret M_ret ALOGE emit prepend app];
    rewrite ?run_bind, (run_load _ _ _ H); reflexivity.
Qed.

Lemma location_configured_spec p :
  location_configured p = true ↔
  0 ≤ location_x p ∧ 0 ≤ location_y p ∧ 0 ≤ location_r p.
Proof.
  unfold location_configured.
  rewrite !andb_true_iff, !Z.geb_le. tauto.
Qed.

(** C5: every call to [getSensorProps] on a coordinator returns exactly
    one descriptor; its component-info sequence has exactly two entries,
    the hardware entry followed by the software entry, and its sensor id
    is [SENSOR_ID], whatever the platform and whatever the coordinator's
    fields hold (a device or none). *)
Theorem getSensorProps_one_descriptor p this w f :
  objects w !! this = Some f →
  ∃ d hw sw t,
    getSensorProps p this w = Ret (STATUS_OK, [d]) w t ∧
    sensorId (commonProps d) = SENSOR_ID ∧
    componentInfo (commonProps d) = [hw; sw] ∧
    length (componentInfo (commonProps d)) = 2%nat ∧
    componentId hw = HW_COMPONENT_ID ∧ hardwareVersion hw = HW_VERSION ∧
    softwareVersion hw = "" ∧
    componentId sw = SW_COMPONENT_ID ∧ softwareVersion sw = SW_VERSION ∧
    hardwareVersion sw = "".
Proof.
  intros H. rewrite (getSensorProps_run p _ _ _ H). cbn zeta.
  do 4 eexists. split; [reflexivity|]. cbn. repeat split.
Qed.

Lemma getSensorProps_one_descriptor_witness :
  ∃ d hw sw t,
    getSensorProps (Sample.platform Sample.hal_none false 0 0 0) 1%nat
      (Sample.world_with (Sample.fingerprint None None) ∅)
    = Ret (STATUS_OK, [d])
        (Sample.world_with (Sample.fingerprint None None) ∅) t ∧
    sensorId (commonProps d) = SENSOR_ID ∧
    componentInfo (commonProps d) = [hw; sw] ∧
    length (componentInfo (commonProps d)) = 2%nat ∧
    componentId hw = HW_COMPONENT_ID ∧ hardwareVersion hw = HW_VERSION ∧
    softwareVersion hw = "" ∧
    componentId sw = SW_COMPONENT_ID ∧ softwareVersion sw = SW_VERSION ∧
    hardwareVersion sw = "".
Proof.
  apply (getSensorProps_one_descriptor _ 1%nat _
           (Sample.fingerprint None None)).
  reflexivity.
Defined.




(** C9: [getSensorProps] leaves the process state as it found it, so
    every field of the coordinator is unchanged; it returns [ok], and
    the only calls it makes outside are log lines. *)
Theorem getSensorProps_no_side_effect p this w f :
  objects w !! this = Some f →
  ∃ out w' t,
    getSensorProps p this w = Ret (STATUS_OK, out) w' t ∧
    w' = w ∧ objects w' !! this = Some f ∧ Forall is_log t.
Proof.
  intros H. rewrite (getSensorProps_run p _ _ _ H). cbn zeta.
  do 3 eexists. split; [reflexivity|]. split; [reflexivity|].
  split; [exact H|].
  destruct (location_configured p); repeat constructor.
Qed.

Lemma getSensorProps_no_side_effect_witness :
  ∃ out w' t,
    getSensorProps (Sample.platform Sample.hal_second true 540 1620 95) 1%nat
      (Sample.world_with
         (Sample.fingerprint (Some 4%nat) (Some (Sample.device 1 0 0)))
         {[ 4%nat := Sample.session (Some (Sample.device 1 0 0)) false ]})
    = Ret (STATUS_OK, out) w' t ∧
    w' = Sample.world_with
           (Sample.fingerprint (Some 4%nat) (Some (Sample.device 1 0 0)))
           {[ 4%nat := Sample.session (Some (Sample.device 1 0 0)) false ]} ∧
    objects w' !! 1%nat =
      Some (Sample.fingerprint (Some 4%nat) (Some (Sample.device 1 0 0))) ∧
    Forall is_log t.
Proof.
  apply (getSensorProps_no_side_effect _ 1%nat). reflexivity.
Defined.

(** C10: [createSession] never reads its [sensorId] argument: two calls
    that differ only in it have the same outcome (status, session
    handed out, resulting process state and calls made). *)
Theorem createSession_ignores_sensorId this sensorId1 sensorId2 userId cb w :
  createSession this sensorId1 userId cb w =
  createSession this sensorId2 userId cb w.
Proof. reflexivity. Qed.

(** ** Notification routing *)

(** C3: [notify] drops the event, logging one line and doing nothing
    else, when [sInstance] is null, when the coordinator has no session,
    or when its session reports itself closed; otherwise it hands the
    very same message to that session's [notify] and does nothing
    else.  In every case it returns normally and the process state is
    unchanged.  (The cases cover every world in which [sInstance] is
    null or points to a live coordinator; a stale [sInstance] is the
    subject of [notify_after_destruction] below.) *)
Theorem notify_routes msg w :
  (sInstance w = None → notify msg w = Ret () w dropped) ∧
  (∀ a f, sInstance w = Some a → objects w !! a = Some f →
     (mSession f = None → notify msg w = Ret () w dropped) ∧
     (∀ s session, mSession f = Some s → sessions w !! s = Some session →
        (isClosed session = true → notify msg w = Ret () w dropped) ∧
        (isClosed session = false →
         notify msg w = Ret () w [Call_Session_notify s msg]))).
Proof.
  unfold notify. rewrite run_bind. cbn [getWorld prepend].
  split.
  - intros ->. reflexivity.
  - intros a f -> Hf. rewrite run_bind, (run_load _ _ _ Hf). cbn [prepend].
    split.
    + intros ->. reflexivity.
    + intros s session -> Hs.
      rewrite run_bind, (run_loadSession _ _ _ Hs). cbn [prepend].
      split; intros ->; reflexivity.
Qed.

Lemma notify_routes_witness :
  notify Sample.message Sample.empty_world
  = Ret () Sample.empty_world dropped ∧
  notify Sample.message Sample.idle = Ret () Sample.idle dropped ∧
  notify Sample.message Sample.with_closed_session
  = Ret () Sample.with_closed_session dropped ∧
  notify Sample.message Sample.with_open_session
  = Ret () Sample.with_open_session
      [Call_Session_notify 4%nat Sample.message].
Proof.
  split; [apply (proj1 (notify_routes _ _)); reflexivity|].
  split.
  { exact (proj1 (proj2 (notify_routes Sample.message Sample.idle) 1%nat
                    (Sample.fingerprint None None) eq_refl eq_refl)
             eq_refl). }
  split.
  { exact (proj1 (proj2 (proj2 (notify_routes Sample.message
                                  Sample.with_closed_session) 1%nat
                           (Sample.fingerprint (Some 4%nat) None)
                           eq_refl eq_refl)
                    4%nat (Sample.session None true) eq_refl eq_refl)
             eq_refl). }
  exact (proj2 (proj2 (proj2 (notify_routes Sample.message
                                Sample.with_open_session) 1%nat
                         (Sample.fingerprint (Some 4%nat) None)
                         eq_refl eq_refl)
                  4%nat (Sample.session None false) eq_refl eq_refl)
           eq_refl).
Defined.

(** ** Session creation *)

Lemma fresh_session_unused (w : World) :
  sessions w !! fresh (dom (sessions w)) = None.
Proof. apply not_elem_of_dom, is_fresh. Qed.

Lemma run_make_Session device udfpsHandler userId cb lockoutTracker w :
  make_Session device udfpsHandler userId cb lockoutTracker w =
  Ret (fresh (dom (sessions w)))
    (set_sessions
       (<[fresh (dom (sessions w)) :=
            {| session_device := device;
               session_udfpsHandler := udfpsHandler;
               session_userId := userId;
               session_cb := cb;
               session_lockoutTracker := lockoutTracker;
               isClosed := false |}]> (sessions w)) w)
    [].
Proof. reflexivity. Qed.

(** What [createSession] does once the [CHECK] has passed. *)
Lemma createSession_after_check this sensorId userId cb w f :
  objects w !! this = Some f →
  no_open_session this w = Ret true w [] →
  createSession this sensorId userId cb w =
  let s := fresh (dom (sessions w)) in
  let w' := session_installed this f s userId cb w in
  match cb with
  | Some c => Ret (STATUS_OK, s) w' [Call_Session_linkToDeath s (asBinder c)]
  | None => Fault w' []
  end.
Proof.
  intros Hf Hcheck. unfold createSession.
  rewrite (run_seq _ _ _ _ _ _ Hcheck). cbn [prepend].
  rewrite run_bind. cbn [CHECK prepend].
  rewrite run_bind, (run_load _ _ _ Hf). cbn [prepend].
  rewrite (run_seq _ _ _ _ _ _ (run_make_Session _ _ _ _ _ _)).
  cbn [prepend].
  erewrite (run_seq (assign _ _)) by (apply run_assign; exact Hf).
  cbn [prepend].
  erewrite (run_seq (load _)) by (apply run_load, lookup_set_objects).
  cbn [prepend mSession set_mSession deref].
  destruct cb as [c|]; reflexivity.
Qed.

Lemma no_open_session_null this w f :
  objects w !! this = Some f → mSession f = None →
  no_open_session this w = Ret true w [].
Proof.
  intros Hf Hs. unfold no_open_session.
  rewrite run_bind, (run_load _ _ _ Hf), Hs. reflexivity.
Qed.

Lemma no_open_session_some this w f s session :
  objects w !! this = Some f → mSession f = Some s →
  sessions w !! s = Some session →
  no_open_session this w = Ret (isClosed session) w [].
Proof.
  intros Hf Hs Hss. unfold no_open_session.
  rewrite run_bind, (run_load _ _ _ Hf), Hs. cbn [prepend].
  rewrite run_bind, (run_loadSession _ _ _ Hss). reflexivity.
Qed.

(** C1: when the coordinator's session is non-null and not closed,
    [createSession] aborts on its [CHECK] and the process state at the
    abort is the state before the call, so neither the session slot
    nor the first session has been touched.  When there is no session,
    or the session reports itself closed, the call goes on: it makes a
    new open session at an unused address, stores it in the slot,
    leaves every existing session as it was, links the callback's
    binder and returns [ok] with the new session (a null callback is
    dereferenced at the link step). *)
Theorem createSession_single_session this sensorId userId cb w f :
  objects w !! this = Some f →
  (∀ s session,
     mSession f = Some s → sessions w !! s = Some session →
     isClosed session = false →
     createSession this sensorId userId cb w =
     Abort "Open session already exists!" w
       [ALOG FATAL "Open session already exists!" []]) ∧
  ((mSession f = None ∨
    ∃ s session, mSession f = Some s ∧ sessions w !! s = Some session ∧
                 isClosed session = true) →
   ∃ s' w',
     createSession this sensorId userId cb w =
       match cb with
       | Some c =>
           Ret (STATUS_OK, s') w' [Call_Session_linkToDeath s' (asBinder c)]
       | None => Fault w' []
       end ∧
     sessions w !! s' = None ∧
     w' = session_installed this f s' userId cb w ∧
     (∀ s, s ≠ s' → sessions w' !! s = sessions w !! s)).
Proof.
  intros Hf. split.
  - intros s session Hs Hss Hopen. unfold createSession.
    rewrite (run_seq _ _ _ _ _ _ (no_open_session_some _ _ _ _ _ Hf Hs Hss)).
    rewrite Hopen. reflexivity.
  - intros Hfree.
    assert (no_open_session this w = Ret true w []) as Hcheck.
    { destruct Hfree as [Hnull|(s & session & Hs & Hss & Hclosed)].
      - by apply (no_open_session_null _ _ f).
      - rewrite <- Hclosed. by apply (no_open_session_some _ _ f s). }
    exists (fresh (dom (sessions w))),
      (session_installed this f (fresh (dom (sessions w))) userId cb w).
    split; [|split; [|split]].
    + exact (createSession_after_check _ sensorId userId cb _ _ Hf Hcheck).
    + apply fresh_session_unused.
    + reflexivity.
    + intros s Hne. cbn. by rewrite lookup_insert_ne.
Qed.

Lemma createSession_single_session_witness :
  createSession 1%nat 0 10 Sample.callback Sample.with_open_session
  = Abort "Open session already exists!" Sample.with_open_session
      [ALOG FATAL "Open session already exists!" []] ∧
  ∃ s' w',
    createSession 1%nat 0 10 Sample.callback Sample.idle
    = Ret (STATUS_OK, s') w'
        [Call_Session_linkToDeath s' {| binder_id := 9 |}] ∧
    objects w' !! 1%nat = Some (Sample.fingerprint (Some s') None).
Proof.
  split.
  - exact (proj1 (createSession_single_session 1%nat 0 10 Sample.callback
                    Sample.with_open_session
                    (Sample.fingerprint (Some 4%nat) None) eq_refl)
             4%nat (Sample.session None false) eq_refl eq_refl eq_refl).
  - destruct (proj2 (createSession_single_session 1%nat 0 10 Sample.callback
                       Sample.idle (Sample.fingerprint None None) eq_refl))
      as (s' & w' & Hrun & _ & Hw' & _).
    + left. reflexivity.
    + exists s', w'. split; [exact Hrun|].
      rewrite Hw'. cbn. apply lookup_insert_eq.
Defined.

(** Two calls in a row: the second aborts, and the world at the abort
    is the world the first call left. *)
Example createSession_twice :
  ∃ s w1 t1,
    createSession 1%nat 0 10 Sample.callback Sample.idle
      = Ret (STATUS_OK, s) w1 t1 ∧
    createSession 1%nat 0 11 Sample.callback w1
      = Abort "Open session already exists!" w1
          [ALOG FATAL "Open session already exists!" []].
Proof. vm_compute. eexists _, _, _. split; reflexivity. Qed.

(** ** Teardown *)

Lemma close_calls_app t1 t2 :
  close_calls (t1 ++ t2) = close_calls t1 ++ close_calls t2.
Proof.
  induction t1 as [|e t1 IH]; [done|].
  destruct e; cbn; by rewrite ?IH.
Qed.

Lemma close_calls_udfps_teardown f : close_calls (udfps_teardown f) = [].
Proof.
  unfold udfps_teardown.
  by destruct (mUdfpsHandler f), (mUdfpsHandlerFactory f).
Qed.

(** The destructor body on a live coordinator whose display handler,
    if any, came from its factory. *)
Lemma Fingerprint_dtor_body_run this w f :
  objects w !! this = Some f →
  (is_Some (mUdfpsHandler f) → is_Some (mUdfpsHandlerFactory f)) →
  Fingerprint_dtor_body this w =
  match mDevice f with
  | None =>
      Ret () w
        (ALOG VERBOSE "~Fingerprint()" [] :: udfps_teardown f ++
         [ALOG ERROR "No valid device" []])
  | Some d =>
      if bool_decide (0 ≠ common_close d) then
        Ret () w
          (ALOG VERBOSE "~Fingerprint()" [] :: udfps_teardown f ++
           [Call_close d;
            ALOG ERROR "Can't close fingerprint module, error: %d"
              [ArgInt (common_close d)]])
      else
        Ret () (set_objects (<[this := set_mDevice None f]> (objects w)) w)
          (ALOG VERBOSE "~Fingerprint()" [] :: udfps_teardown f ++
           [Call_close d])
  end.
Proof.
  intros Hf Hinv. unfold Fingerprint_dtor_body.
  rewrite run_bind. cbn [ALOGV emit prepend].
  rewrite run_bind, (run_load _ _ _ Hf). cbn [prepend app].
  assert (∀ B (k : () → M B),
            (match mUdfpsHandler f with
             | Some h =>
                 factory ← deref (mUdfpsHandlerFactory f);
                 emit (Call_UdfpsHandlerFactory_destroy factory h)
             | None => mret ()
             end ≫= k) w
            = prepend (udfps_teardown f) (k () w)) as Hteardown.
  { intros B k. rewrite run_bind. unfold udfps_teardown.
    destruct (mUdfpsHandler f) as [h|]; [|reflexivity].
    destruct (mUdfpsHandlerFactory f) as [factory|]; [reflexivity|].
    destruct Hinv as [? [=]]. by eexists. }
  rewrite Hteardown. rewrite prepend_app.
  rewrite run_bind, (run_load _ _ _ Hf). cbn [prepend].
  destruct (mDevice f) as [d|]; [|reflexivity].
  rewrite run_bind. cbn [emit prepend].
  case_bool_decide.
  - reflexivity.
  - rewrite (run_assign _ _ _ _ Hf). reflexivity.
Qed.

Lemma Fingerprint_dtor_run this w w' t :
  Fingerprint_dtor_body this w = Ret () w' t →
  Fingerprint_dtor this w =
  Ret () (set_objects (delete this (objects w')) w') t.
Proof.
  intros Hbody. unfold Fingerprint_dtor.
  rewrite (run_seq _ _ _ _ _ _ Hbody). unfold end_lifetime.
  rewrite run_bind. cbn [getWorld putWorld prepend]. by rewrite !app_nil_r.
Qed.




(** ** The static instance pointer *)

Lemma keeps_bind {A B} (m : M A) (k : A → M B) :
  keeps_sInstance m → (∀ a, keeps_sInstance (k a)) →
  keeps_sInstance (m ≫= k).
Proof.
  intros Hm Hk w. rewrite run_bind. specialize (Hm w).
  destruct (m w) as [a w' t|msg w' t|w' t]; cbn in *; [|done..].
  rewrite world_of_prepend, Hk. exact Hm.
Qed.

Lemma keeps_ret {A} (a : A) : keeps_sInstance (mret a).
Proof. by intros w. Qed.

Lemma keeps_emit e : keeps_sInstance (emit e).
Proof. by intros w. Qed.

Lemma keeps_deref {A} (x : option A) : keeps_sInstance (deref x).
Proof. by destruct x; intros w. Qed.

Lemma keeps_load this : keeps_sInstance (load this).
Proof.
  intros w. unfold load. rewrite run_bind. cbn.
  by destruct (objects w !! this).
Qed.

Lemma keeps_store this f : keeps_sInstance (store this f).
Proof. by intros w. Qed.

Lemma keeps_assign this upd : keeps_sInstance (assign this upd).
Proof. apply keeps_bind; [apply keeps_load|intros; apply keeps_store]. Qed.

Lemma keeps_end_lifetime this : keeps_sInstance (end_lifetime this).
Proof. by intros w. Qed.

Create HintDb keeps.
#[local] Hint Resolve keeps_ret keeps_emit keeps_deref keeps_load keeps_store
  keeps_assign keeps_end_lifetime : keeps.
#[local] Hint Unfold ALOGV ALOGD ALOGI ALOGE : keeps.

Ltac keeps :=
  repeat match goal with
    | |- keeps_sInstance (_ ≫= _) => apply keeps_bind; [|intros]
    | |- keeps_sInstance (match ?x with _ => _ end) => destruct x
    | |- keeps_sInstance _ => solve [eauto with keeps]
    end.

Lemma keeps_openHal p cls : keeps_sInstance (openHal p cls).
Proof. unfold openHal. keeps. Qed.

Lemma keeps_open_modules p this mods :
  keeps_sInstance (open_modules p this mods).
Proof.
  induction mods as [|m rest IH]; cbn [open_modules]; [apply keeps_ret|].
  apply keeps_bind; [apply keeps_openHal|intros d]. keeps.
Qed.

Lemma keeps_init_udfps p this : keeps_sInstance (init_udfps p this).
Proof. unfold init_udfps. keeps. Qed.

Lemma keeps_Fingerprint_dtor this : keeps_sInstance (Fingerprint_dtor this).
Proof. unfold Fingerprint_dtor, Fingerprint_dtor_body. keeps. Qed.

Lemma Fingerprint_ctor_sets_sInstance p this w :
  sInstance (world_of (Fingerprint_ctor p this w)) = Some this.
Proof.
  unfold Fingerprint_ctor. rewrite run_bind, run_store. cbn [prepend].
  rewrite run_bind. cbn [getWorld prepend].
  rewrite run_bind. cbn [putWorld prepend].
  rewrite !world_of_prepend.
  assert (keeps_sInstance
            (open_modules p this kModules;;
             f ← load this;
             match mDevice f with
             | Some _ => mret ()
             | None => ALOGE "Can't open any HAL module" []
             end;;
             (if USES_UDFPS_SENSOR p then init_udfps p this else mret ())))
    as Hrest.
  { apply keeps_bind; [apply keeps_open_modules|intros]. keeps.
    apply keeps_init_udfps. }
  exact (Hrest _).
Qed.

(** C8: the constructor stores the new object's address in [sInstance];
    the destructor never writes [sInstance], however it ends; so after a
    coordinator registered there has been destroyed, [sInstance] still
    holds its address although no object lives there any more.  Only
    another construction replaces it. *)
Theorem sInstance_survives_destruction :
  (∀ p this w, sInstance (world_of (Fingerprint_ctor p this w)) = Some this) ∧
  (∀ this w, sInstance (world_of (Fingerprint_dtor this w)) = sInstance w) ∧
  (∀ this w f,
     sInstance w = Some this → objects w !! this = Some f →
     (is_Some (mUdfpsHandler f) → is_Some (mUdfpsHandlerFactory f)) →
     ∃ w' t,
       Fingerprint_dtor this w = Ret () w' t ∧
       sInstance w' = Some this ∧ objects w' !! this = None).
Proof.
  split; [exact Fingerprint_ctor_sets_sInstance|].
  split; [exact keeps_Fingerprint_dtor|].
  intros this w f Hs Hf Hinv.
  pose proof (keeps_Fingerprint_dtor this w) as Hkeep.
  pose proof (Fingerprint_dtor_body_run _ _ _ Hf Hinv) as Hbody.
  assert (∃ w' t, Fingerprint_dtor_body this w = Ret () w' t) as (w' & t & Hw').
  { rewrite Hbody. destruct (mDevice f); [case_bool_decide|]; eauto. }
  rewrite (Fingerprint_dtor_run _ _ _ _ Hw') in Hkeep |- *.
  eexists _, _. split; [reflexivity|]. split.
  - cbn in Hkeep |- *. congruence.
  - cbn. apply lookup_delete_eq.
Qed.

Lemma sInstance_survives_destruction_witness :
  ∃ w' t,
    Fingerprint_dtor 1%nat Sample.with_good_device = Ret () w' t ∧
    sInstance w' = Some 1%nat ∧ objects w' !! 1%nat = None.
Proof.
  assert (is_Some (@None UdfpsHandler) → is_Some (@None UdfpsHandlerFactory))
    as Hinv by (intros [? [=]]).
  exact (proj2 (proj2 sInstance_survives_destruction) 1%nat
           Sample.with_good_device
           (Sample.fingerprint None (Some Sample.good_device))
           eq_refl eq_refl Hinv).
Defined.

(** The hazard behind C8: a callback that arrives after the destructor
    and before the next construction reads through the stale pointer. *)
Example notify_after_destruction :
  ∃ w t,
    (Fingerprint_ctor (Sample.platform Sample.hal_second false 0 0 0) 1%nat;;
     Fingerprint_dtor 1%nat;;
     notify Sample.message) Sample.empty_world = Fault w t ∧
    sInstance w = Some 1%nat ∧ objects w !! 1%nat = None.
Proof. vm_compute. eexists _, _. repeat split. Qed.

(** ** Backend discovery *)

Lemma openHal_opens p cls d w :
  candidate_opens p cls d →
  ∃ t, openHal p cls w = Ret (Some d) w t ∧ attempted t = [cls].
Proof.
  intros (module & meths & Hget & Hmeths & Hopen & Hnotify).
  unfold openHal. msimpl. rewrite Hget.
  rewrite bool_decide_eq_false_2 by (intros H; by apply H).
  rewrite Hmeths. msimpl. rewrite Hopen. msimpl.
  rewrite bool_decide_eq_false_2 by (intros H; by apply H).
  msimpl. rewrite bool_decide_eq_false_2 by (intros H; by apply H).
  eexists. split; reflexivity.
Qed.

Lemma openHal_fails p cls w :
  candidate_fails p cls →
  ∃ t, openHal p cls w = Ret None w t ∧ attempted t = [cls].
Proof.
  intros Hfail. unfold openHal. msimpl.
  destruct Hfail as [status hw_mdl Hget Hstatus | Hget
                    | module meths Hget Hmeths Hopen
                    | module meths err device Hget Hmeths Hopen Herr
                    | module meths d Hget Hmeths Hopen Hnotify];
    rewrite Hget.
  - rewrite bool_decide_eq_true_2 by done.
    eexists. split; reflexivity.
  - rewrite bool_decide_eq_false_2 by (intros H; by apply H).
    eexists. split; reflexivity.
  - rewrite bool_decide_eq_false_2 by (intros H; by apply H).
    rewrite Hmeths. msimpl. rewrite Hopen.
    eexists. split; reflexivity.
  - rewrite bool_decide_eq_false_2 by (intros H; by apply H).
    rewrite Hmeths. msimpl. rewrite Hopen. msimpl.
    rewrite bool_decide_eq_true_2 by done.
    eexists. split; reflexivity.
  - rewrite bool_decide_eq_false_2 by (intros H; by apply H).
    rewrite Hmeths. msimpl. rewrite Hopen. msimpl.
    rewrite bool_decide_eq_false_2 by (intros H; by apply H).
    msimpl. rewrite bool_decide_eq_true_2 by done.
    eexists. split; reflexivity.
Qed.

(** Outside both predicates: [open] reports success but leaves the
    device pointer null, and [openHal] dereferences it. *)
Remark openHal_null_device p cls w module meths :
  hw_get_module_by_class p (FINGERPRINT_HARDWARE_MODULE_ID p) cls
    = (0, Some module) →
  methods module = Some meths → open meths = Some (0, None) →
  ∃ t, openHal p cls w = Fault w t.
Proof.
  intros Hget Hmeths Hopen. unfold openHal. msimpl. rewrite Hget.
  rewrite bool_decide_eq_false_2 by (intros H; by apply H).
  rewrite Hmeths. msimpl. rewrite Hopen. msimpl.
  rewrite bool_decide_eq_false_2 by (intros H; by apply H).
  rewrite run_bind. cbn. eexists. reflexivity.
Qed.

Lemma attempted_app t1 t2 :
  attempted (t1 ++ t2) = attempted t1 ++ attempted t2.
Proof.
  induction t1 as [|e t1 IH]; [done|].
  destruct e; cbn; by rewrite ?IH.
Qed.

Lemma device_assigned_twice this f d1 d2 w :
  device_assigned this (set_mDevice d1 f) d2 (device_assigned this f d1 w)
  = device_assigned this f d2 w.
Proof.
  unfold device_assigned, set_objects. cbn. f_equal. apply insert_insert_eq.
Qed.

Lemma lookup_device_assigned this f d w :
  objects (device_assigned this f d w) !! this = Some (set_mDevice d f).
Proof. apply lookup_set_objects. Qed.

(** One turn of the loop on a candidate that fails. *)
Lemma open_modules_next p this m w f :
  objects w !! this = Some f →
  candidate_fails p (class_name m) →
  ∃ t, attempted t = [class_name m] ∧
       ∀ rest,
         open_modules p this (m :: rest) w =
         prepend t (open_modules p this rest (device_assigned this f None w)).
Proof.
  intros Hf Hfail.
  destruct (openHal_fails p _ w Hfail) as (t & Hrun & Hatt).
  exists (t ++ [ALOG ERROR "Can't open HAL module, class %s"
                  [ArgString (class_name m)]]).
  split.
  - rewrite attempted_app, Hatt. reflexivity.
  - intros rest. cbn [open_modules].
    rewrite (run_seq _ _ _ _ _ _ Hrun).
    rewrite (run_seq _ _ _ _ _ _ (run_assign _ _ _ _ Hf)). cbn [prepend].
    erewrite (run_seq (load _)) by apply run_load, lookup_set_objects.
    cbn [prepend mDevice set_mDevice]. msimpl.
    by rewrite !app_nil_r.
Qed.

(** One turn of the loop on a candidate that opens: the loop ends. *)
Lemma open_modules_break p this m d w f :
  objects w !! this = Some f →
  candidate_opens p (class_name m) d →
  ∃ t, attempted t = [class_name m] ∧
       ∀ rest,
         open_modules p this (m :: rest) w =
         Ret () (device_assigned this f (Some d) w) t.
Proof.
  intros Hf Hopen.
  destruct (openHal_opens p _ d w Hopen) as (t & Hrun & Hatt).
  exists (t ++ [ALOG INFO "Opened fingerprint HAL, class %s"
                  [ArgString (class_name m)]]).
  split.
  - rewrite attempted_app, Hatt. reflexivity.
  - intros rest. cbn [open_modules].
    rewrite (run_seq _ _ _ _ _ _ Hrun).
    rewrite (run_seq _ _ _ _ _ _ (run_assign _ _ _ _ Hf)). cbn [prepend].
    erewrite (run_seq (load _)) by apply run_load, lookup_set_objects.
    cbn [prepend mDevice set_mDevice]. msimpl.
    by rewrite !app_nil_r.
Qed.

(** The loop over failing candidates followed by one that opens. *)
Lemma open_modules_first p this pre b d :
  Forall (λ a, candidate_fails p (class_name a)) pre →
  candidate_opens p (class_name b) d →
  ∀ w f,
    objects w !! this = Some f →
    ∃ t, attempted t = class_name <$> (pre ++ [b]) ∧
         ∀ post,
           open_modules p this (pre ++ b :: post) w =
           Ret () (device_assigned this f (Some d) w) t.
Proof.
  intros Hpre Hb. induction Hpre as [|a pre Ha Hpre IH]; intros w f Hf.
  - exact (open_modules_break _ _ _ _ _ _ Hf Hb).
  - destruct (open_modules_next _ _ _ _ _ Hf Ha) as (t1 & Hatt1 & Hstep).
    destruct (IH (device_assigned this f None w) (set_mDevice None f)
                (lookup_device_assigned _ _ _ _)) as (t2 & Hatt2 & Hrest).
    exists (t1 ++ t2). split.
    + rewrite attempted_app, Hatt1, Hatt2. reflexivity.
    + intros post. cbn [app]. rewrite Hstep, Hrest. cbn [prepend].
      by rewrite device_assigned_twice.
Qed.


(** The display-handler tail of the constructor leaves the device, the
    session slot and the session store alone and asks the hardware
    library for nothing. *)
Lemma init_udfps_run p this w f :
  objects w !! this = Some f →
  ∃ w' t f',
    init_udfps p this w = Ret () w' t ∧
    objects w' !! this = Some f' ∧
    mDevice f' = mDevice f ∧ mSession f' = mSession f ∧
    sessions w' = sessions w ∧ attempted t = [].
Proof.
  intros Hf. unfold init_udfps. msimpl.
  rewrite (run_seq _ _ _ _ _ _ (run_assign _ _ _ _ Hf)). cbn [prepend].
  erewrite (run_seq (load _)) by apply run_load, lookup_set_objects.
  cbn [prepend mUdfpsHandlerFactory set_mUdfpsHandlerFactory].
  destruct (getUdfpsHandlerFactory p) as [factory|].
  - msimpl.
    erewrite (run_seq (assign _ _))
      by (apply run_assign, lookup_set_objects).
    cbn [prepend].
    erewrite (run_seq (load _)) by apply run_load, lookup_set_objects.
    cbn [prepend mUdfpsHandler set_mUdfpsHandler].
    destruct (create factory) as [h|]; msimpl;
      (eexists _, _, _; split; [reflexivity|];
       split; [apply lookup_set_objects|]; by repeat split).
  - msimpl. eexists _, _, _. split; [reflexivity|].
    split; [apply lookup_set_objects|]. by repeat split.
Qed.

(** The constructor, given what its loop does. *)
Lemma Fingerprint_ctor_run p this w w1 t1 f1 :
  open_modules p this kModules (under_construction p this w)
    = Ret () w1 t1 →
  objects w1 !! this = Some f1 →
  ∃ w' t f',
    Fingerprint_ctor p this w = Ret () w' t ∧
    objects w' !! this = Some f' ∧
    mDevice f' = mDevice f1 ∧ mSession f' = mSession f1 ∧
    sessions w' = sessions w1 ∧ attempted t = attempted t1.
Proof.
  intros Hloop Hf1. unfold Fingerprint_ctor.
  rewrite run_bind, run_store. cbn [prepend].
  rewrite run_bind. cbn [getWorld prepend].
  rewrite run_bind. cbn [putWorld prepend].
  fold (under_construction p this w).
  rewrite (run_seq _ _ _ _ _ _ Hloop). rewrite !prepend_app. cbn [app].
  rewrite (run_seq _ _ _ _ _ _ (run_load _ _ _ Hf1)). cbn [prepend].
  assert (∃ tlog, attempted tlog = [] ∧
            ∀ B (k : () → M B),
              (match mDevice f1 with
               | Some _ => mret ()
               | None => ALOGE "Can't open any HAL module" []
               end ≫= k) w1 = prepend tlog (k () w1))
    as (tlog & Hatt & Hlog).
  { destruct (mDevice f1).
    - exists []. split; [done|]. intros. msimpl. by rewrite prepend_nil.
    - exists [ALOG ERROR "Can't open any HAL module" []].
      split; [done|]. intros. by msimpl. }
  rewrite Hlog, prepend_app.
  destruct (USES_UDFPS_SENSOR p).
  - destruct (init_udfps_run p _ _ _ Hf1)
      as (w' & t & f' & Hrun & Hf' & Hd & Hs & Hss & Hatt').
    rewrite Hrun. cbn [prepend].
    eexists _, _, f'. split; [reflexivity|]. repeat split; try done.
    by rewrite !attempted_app, Hatt, Hatt', !app_nil_r.
  - rewrite run_ret. cbn [prepend].
    eexists _, _, f1. split; [reflexivity|]. repeat split; try done.
    by rewrite !attempted_app, Hatt, !app_nil_r.
Qed.

(** C2: when the candidates in [pre] all fail (at resolution, at open
    or at callback registration) and the next candidate [b] resolves,
    opens and registers with device [d], the loop over [pre], [b] and
    any further candidates [post] returns with [mDevice] set to [d]; the
    hardware library was asked for the classes of [pre] and then of [b]
    and for nothing else, and outcome and calls are the same whatever
    [post] is.  The constructor, whose list is [kModules], ends with
    that device as well. *)
Theorem discovery_first_success p pre b d :
  Forall (λ a, candidate_fails p (class_name a)) pre →
  candidate_opens p (class_name b) d →
  (∀ this w f,
     objects w !! this = Some f →
     ∃ w' t,
       (∀ post, open_modules p this (pre ++ b :: post) w = Ret () w' t) ∧
       objects w' !! this = Some (set_mDevice (Some d) f) ∧
       attempted t = class_name <$> (pre ++ [b])) ∧
  (∀ this w post,
     kModules = pre ++ b :: post →
     ∃ w' t f',
       Fingerprint_ctor p this w = Ret () w' t ∧
       objects w' !! this = Some f' ∧ mDevice f' = Some d ∧
       attempted t = class_name <$> (pre ++ [b])).
Proof.
  intros Hpre Hb. split.
  - intros this w f Hf.
    destruct (open_modules_first p this _ _ _ Hpre Hb _ _ Hf)
      as (t & Hatt & Hrun).
    exists (device_assigned this f (Some d) w), t.
    split; [exact Hrun|]. split; [apply lookup_device_assigned|exact Hatt].
  - intros this w post Hk.
    destruct (open_modules_first p this _ _ _ Hpre Hb
                (under_construction p this w) (member_init p)
                (lookup_insert_eq _ _ _))
      as (t & Hatt & Hrun).
    specialize (Hrun post). rewrite <- Hk in Hrun.
    destruct (Fingerprint_ctor_run _ _ _ _ _ _ Hrun
                (lookup_device_assigned _ _ _ _))
      as (w' & t' & f' & Hctor & Hf' & Hd & _ & _ & Hatt').
    exists w', t', f'. split; [exact Hctor|]. split; [exact Hf'|].
    split; [exact Hd|]. by rewrite Hatt'.
Qed.

Lemma discovery_first_success_witness :
  ∃ w' t f',
    Fingerprint_ctor Sample.second_opens 1%nat Sample.empty_world
      = Ret () w' t ∧
    objects w' !! 1%nat = Some f' ∧
    mDevice f' = Some (Sample.device 1 0 0) ∧
    attempted t = ["fpc"; "fpc_fod"].
Proof.
  assert (Forall (λ a, candidate_fails Sample.second_opens (class_name a))
            [ {| class_name := "fpc" |} ]) as Hpre.
  { constructor; [|constructor].
    eapply open_fails; [reflexivity..|]. cbn. lia. }
  assert (candidate_opens Sample.second_opens "fpc_fod"
            (Sample.device 1 0 0)) as Hb.
  { eexists _, _. repeat split; reflexivity. }
  exact (proj2 (discovery_first_success Sample.second_opens
                  [ {| class_name := "fpc" |} ] {| class_name := "fpc_fod" |}
                  (Sample.device 1 0 0) Hpre Hb)
           1%nat Sample.empty_world
           [ {| class_name := "goodix" |}; {| class_name := "goodix_fod" |};
             {| class_name := "goodix_fod6" |}; {| class_name := "silead" |};
             {| class_name := "syna" |} ] eq_refl).
Defined.

(** ** Session creation without a backend *)




(** * Further properties *)

Lemma returns_eq (o : Outcome ()) :
  returns o = true → o = Ret () (world_of o) (trace_of o).
Proof. by destruct o as [[] w t| |]. Qed.

(** ** Discovery as a function of the platform *)

Lemma openHal_probe p cls w :
  ∃ t, attempted t = [cls] ∧
       openHal p cls w =
       match probe p cls with
       | Opened d => Ret (Some d) w t
       | NotOpened => Ret None w t
       | NullDeref => Fault w t
       end.
Proof.
  unfold openHal, probe. msimpl.
  destruct (hw_get_module_by_class p (FINGERPRINT_HARDWARE_MODULE_ID p) cls)
    as [status hw_mdl].
  case_bool_decide; [eexists; split; [|reflexivity]; reflexivity|].
  destruct hw_mdl as [module|]; [|eexists; split; [|reflexivity]; reflexivity].
  destruct (methods module) as [meths|]; msimpl;
    [|rewrite run_bind; cbn; eexists; split; [|reflexivity]; reflexivity].
  destruct (open meths) as [[err device]|];
    [|eexists; split; [|reflexivity]; reflexivity].
  msimpl. case_bool_decide; [eexists; split; [|reflexivity]; reflexivity|].
  destruct device as [d|]; msimpl;
    [|rewrite run_bind; cbn; eexists; split; [|reflexivity]; reflexivity].
  case_bool_decide; eexists; (split; [|reflexivity]); reflexivity.
Qed.

Lemma set_mDevice_same f : set_mDevice (mDevice f) f = f.
Proof. by destruct f. Qed.

Lemma device_assigned_same this f w :
  objects w !! this = Some f →
  device_assigned this f (mDevice f) w = w.
Proof.
  intros Hf. unfold device_assigned, set_objects.
  rewrite set_mDevice_same, (insert_id _ _ _ Hf). by destruct w.
Qed.

(** The constructor loop, started with a null [mDevice]. *)
Lemma open_modules_discover p this mods w f :
  objects w !! this = Some f → mDevice f = None →
  ∃ t, attempted t = tried p mods ∧
       open_modules p this mods w =
       match discover p mods with
       | Opened d => Ret () (device_assigned this f (Some d) w) t
       | NotOpened => Ret () w t
       | NullDeref => Fault w t
       end.
Proof.
  intros Hf Hd. induction mods as [|m rest IH].
  - exists []. split; reflexivity.
  - cbn [open_modules discover tried].
    destruct (openHal_probe p (class_name m) w) as (t0 & Hatt0 & Hrun).
    destruct (probe p (class_name m)) as [d| |].
    + eexists. split; [|by rewrite (run_seq _ _ _ _ _ _ Hrun),
        (run_seq _ _ _ _ _ _ (run_assign _ _ _ _ Hf));
        cbn [prepend];
        erewrite (run_seq (load _)) by apply run_load, lookup_set_objects;
        cbn [prepend mDevice set_mDevice]; msimpl].
      by rewrite !app_nil_r, attempted_app, Hatt0.
    + destruct IH as (t1 & Hatt1 & Hrest).
      eexists. split; [|rewrite (run_seq _ _ _ _ _ _ Hrun),
        (run_seq _ _ _ _ _ _ (run_assign _ _ _ _ Hf));
        cbn [prepend];
        erewrite (run_seq (load _)) by apply run_load, lookup_set_objects;
        cbn [prepend mDevice set_mDevice]; msimpl;
        fold (device_assigned this f None w);
        rewrite <- Hd, (device_assigned_same _ _ _ Hf), Hrest;
        by destruct (discover p rest)].
      by rewrite !app_nil_r, !attempted_app, Hatt0, Hatt1.
    + exists t0. split; [by rewrite Hatt0|].
      by rewrite run_bind, Hrun.
Qed.

Lemma init_udfps_exact p this w f :
  objects w !! this = Some f →
  init_udfps p this w =
  Ret () (set_objects (<[this := udfps_members p f]> (objects w)) w)
    (udfps_trace p (mDevice f)).
Proof.
  intros Hf. unfold init_udfps, udfps_members, udfps_trace. msimpl.
  rewrite (run_seq _ _ _ _ _ _ (run_assign _ _ _ _ Hf)). cbn [prepend].
  erewrite (run_seq (load _)) by apply run_load, lookup_set_objects.
  cbn [prepend mUdfpsHandlerFactory set_mUdfpsHandlerFactory].
  destruct (getUdfpsHandlerFactory p) as [factory|]; msimpl; [|reflexivity].
  erewrite (run_seq (assign _ _)) by (apply run_assign, lookup_set_objects).
  cbn [prepend].
  erewrite (run_seq (load _)) by apply run_load, lookup_set_objects.
  cbn [prepend mUdfpsHandler set_mUdfpsHandler].
  unfold set_objects at 1 2. cbn [objects sInstance sessions].
  rewrite insert_insert_eq.
  destruct (create factory) as [h|]; msimpl; reflexivity.
Qed.

Lemma world_at_construction p this w f :
  set_objects (<[this := f]> (objects (under_construction p this w)))
    (under_construction p this w)
  = {| sInstance := Some this; objects := <[this := f]> (objects w);
       sessions := sessions w |}.
Proof.
  unfold under_construction, set_objects, set_sInstance. cbn.
  by rewrite insert_insert_eq.
Qed.

(** The constructor: its outcome is decided by [discover] alone. *)
Lemma Fingerprint_ctor_outcome p this w :
  ∃ t, attempted t = tried p kModules ∧
       Fingerprint_ctor p this w =
       match discover p kModules with
       | Opened d =>
           Ret () (constructed p this (Some d) w)
             (t ++ construction_tail p (Some d))
       | NotOpened =>
           Ret () (constructed p this None w) (t ++ construction_tail p None)
       | NullDeref => Fault (under_construction p this w) t
       end.
Proof.
  destruct (open_modules_discover p this kModules
              (under_construction p this w) (member_init p)
              (lookup_insert_eq _ _ _) eq_refl) as (t & Hatt & Hloop).
  exists t. split; [exact Hatt|].
  unfold Fingerprint_ctor.
  rewrite run_bind, run_store. cbn [prepend].
  rewrite run_bind. cbn [getWorld prepend].
  rewrite run_bind. cbn [putWorld prepend].
  fold (under_construction p this w).
  rewrite run_bind, Hloop. rewrite !prepend_nil.
  unfold constructed, built, construction_tail.
  destruct (discover p kModules) as [d| |]; [| |reflexivity]; cbn [prepend].
  - erewrite (run_seq (load _)) by apply run_load, lookup_device_assigned.
    cbn [prepend mDevice set_mDevice]. msimpl.
    unfold device_assigned. rewrite world_at_construction.
    destruct (USES_UDFPS_SENSOR p).
    + erewrite init_udfps_exact by apply lookup_insert_eq.
      unfold set_objects.
      cbn [prepend objects sInstance sessions mDevice set_mDevice].
      by rewrite insert_insert_eq, app_nil_r.
    + rewrite run_ret. cbn [prepend]. by rewrite !app_nil_r.
  - erewrite (run_seq (load _)) by apply run_load, lookup_insert_eq.
    cbn [prepend mDevice member_init]. msimpl.
    destruct (USES_UDFPS_SENSOR p).
    + erewrite init_udfps_exact by apply lookup_insert_eq.
      cbn [prepend]. rewrite world_at_construction.
      by rewrite app_nil_r, <- app_assoc.
    + rewrite run_ret. cbn [prepend]. unfold under_construction,
        set_objects, set_sInstance.
      cbn [objects sInstance sessions]. by rewrite !app_nil_r.
Qed.

Lemma tried_all p mods :
  discover p mods = NotOpened → tried p mods = class_name <$> mods.
Proof.
  induction mods as [|m rest IH]; [done|].
  cbn [discover tried]. destruct (probe p (class_name m)); [done| |done].
  intros H. by rewrite (IH H).
Qed.

(** The members of the coordinator the constructor leaves. *)
Lemma built_members p d :
  mSession (built p d) = None ∧ mDevice (built p d) = d ∧
  mLockoutTracker (built p d) = LockoutTracker_init p ∧
  mMaxEnrollmentsPerUser (built p d) = MAX_ENROLLMENTS_PER_USER ∧
  mSupportsGestures (built p d) = false ∧
  mSensorType (built p d)
    = (if USES_UDFPS_SENSOR p then UNDER_DISPLAY_OPTICAL else UNKNOWN).
Proof.
  unfold built, udfps_members, member_init.
  destruct (USES_UDFPS_SENSOR p); [|repeat split; reflexivity].
  destruct (getUdfpsHandlerFactory p); repeat split; reflexivity.
Qed.

Lemma built_handler p d :
  mUdfpsHandler (built p d)
    = (if USES_UDFPS_SENSOR p
       then factory ← getUdfpsHandlerFactory p; create factory
       else None) ∧
  mUdfpsHandlerFactory (built p d)
    = (if USES_UDFPS_SENSOR p then getUdfpsHandlerFactory p else None).
Proof.
  unfold built, udfps_members.
  destruct (USES_UDFPS_SENSOR p); [|split; reflexivity].
  destruct (getUdfpsHandlerFactory p); split; reflexivity.
Qed.

Lemma built_handler_has_factory p d :
  is_Some (mUdfpsHandler (built p d)) →
  is_Some (mUdfpsHandlerFactory (built p d)).
Proof.
  destruct (built_handler p d) as [-> ->].
  destruct (USES_UDFPS_SENSOR p); [|done].
  destruct (getUdfpsHandlerFactory p); [by eexists|]. by intros [? [=]].
Qed.

(** When the constructor returns, it has left [constructed]. *)
Lemma Fingerprint_ctor_returns p this w w1 t1 :
  Fingerprint_ctor p this w = Ret () w1 t1 →
  ∃ d t,
    w1 = constructed p this d w ∧ t1 = t ++ construction_tail p d ∧
    attempted t = tried p kModules ∧
    d = match discover p kModules with Opened d => Some d | _ => None end.
Proof.
  intros Hctor.
  destruct (Fingerprint_ctor_outcome p this w) as (t & Hatt & Hrun).
  rewrite Hctor in Hrun.
  destruct (discover p kModules) as [d| |]; [| |done];
    injection Hrun as -> ->; by eexists _, _.
Qed.

Lemma lookup_constructed p this d w :
  objects (constructed p this d w) !! this = Some (built p d).
Proof. apply lookup_insert_eq. Qed.

(** ** What is emitted *)

Lemma emits_bind {A B} P (m : M A) (k : A → M B) :
  emits_only P m → (∀ a, emits_only P (k a)) → emits_only P (m ≫= k).
Proof.
  intros Hm Hk w. rewrite run_bind. specialize (Hm w).
  destruct (m w) as [a w' t|msg w' t|w' t]; cbn in *; [|done..].
  rewrite trace_of_prepend. apply Forall_app. split; [done|apply Hk].
Qed.

Lemma emits_silent {A} P (m : M A) :
  (∀ w, trace_of (m w) = []) → emits_only P m.
Proof. intros H w. by rewrite H. Qed.

Lemma emits_emit P e : P e → emits_only P (emit e).
Proof. intros H w. by repeat constructor. Qed.

Lemma emits_ret {A} P (a : A) : emits_only P (mret a : M A).
Proof. by apply emits_silent. Qed.

Lemma emits_deref {A} P (x : option A) : emits_only P (deref x).
Proof. apply emits_silent. by destruct x. Qed.

Lemma emits_load P this : emits_only P (load this).
Proof.
  apply emits_silent. intros w. unfold load. rewrite run_bind. cbn.
  by destruct (objects w !! this).
Qed.

Lemma emits_loadSession P s : emits_only P (loadSession s).
Proof.
  apply emits_silent. intros w. unfold loadSession. rewrite run_bind. cbn.
  by destruct (sessions w !! s).
Qed.

Lemma emits_store P this f : emits_only P (store this f).
Proof. by apply emits_silent. Qed.

Lemma emits_assign P this upd : emits_only P (assign this upd).
Proof. apply emits_bind; [apply emits_load|intros; apply emits_store]. Qed.

Lemma emits_getWorld P : emits_only P getWorld.
Proof. by apply emits_silent. Qed.

Lemma emits_putWorld P w : emits_only P (putWorld w).
Proof. by apply emits_silent. Qed.

Lemma emits_make_Session P device udfpsHandler userId cb lockoutTracker :
  emits_only P (make_Session device udfpsHandler userId cb lockoutTracker).
Proof. by apply emits_silent. Qed.

Lemma emits_CHECK P cond msg :
  P (ALOG FATAL msg []) → emits_only P (CHECK cond msg).
Proof. intros H w. unfold CHECK. destruct cond; by repeat constructor. Qed.

Create HintDb emits.
#[local] Hint Resolve emits_ret emits_deref emits_load emits_loadSession
  emits_store emits_assign emits_getWorld emits_putWorld emits_make_Session
  : emits.

Ltac emitting :=
  unfold drop_notification; unfold ALOGV, ALOGD, ALOGI, ALOGE;
  repeat match goal with
    | |- emits_only _ (_ ≫= _) => apply emits_bind; [|intros]
    | |- emits_only _ (emit _) => apply emits_emit; exact I
    | |- emits_only _ (CHECK _ _) => apply emits_CHECK; exact I
    | |- emits_only _ (match ?x with _ => _ end) => destruct x
    | |- emits_only _ _ => solve [eauto with emits]
    end.

Lemma emits_openHal P p cls :
  (∀ e, not_close e → not_udfps e → P e) → emits_only P (openHal p cls).
Proof.
  intros HP. unfold openHal.
  unfold ALOGV, ALOGD, ALOGI, ALOGE.
  repeat match goal with
    | |- emits_only _ (_ ≫= _) => apply emits_bind; [|intros]
    | |- emits_only _ (emit _) => apply emits_emit, HP; exact I
    | |- emits_only _ (match ?x with _ => _ end) => destruct x
    | |- emits_only _ _ => solve [eauto with emits]
    end.
Qed.

Lemma emits_open_modules P p this mods :
  (∀ e, not_close e → not_udfps e → P e) →
  emits_only P (open_modules p this mods).
Proof.
  intros HP. induction mods as [|m rest IH]; cbn [open_modules].
  { apply emits_ret. }
  apply emits_bind; [by apply emits_openHal|intros d].
  unfold ALOGV, ALOGD, ALOGI, ALOGE.
  repeat match goal with
    | |- emits_only _ (_ ≫= _) => apply emits_bind; [|intros]
    | |- emits_only _ (emit _) => apply emits_emit, HP; exact I
    | |- emits_only _ (match ?x with _ => _ end) => destruct x
    | |- emits_only _ _ => solve [eauto with emits]
    end.
Qed.

Lemma close_calls_none t : Forall not_close t → close_calls t = [].
Proof.
  induction 1 as [|e t He _ IH]; [done|]. by destruct e.
Qed.

(** ** What is left alone *)

Create HintDb frame.

Section Frame.

Context (this : addr) (R : World → World → Prop).

Hypothesis R_refl : ∀ w, R w w.
Hypothesis R_trans : ∀ w1 w2 w3, R w1 w2 → R w2 w3 → R w1 w3.
Hypothesis R_store :
  ∀ w f, R w (set_objects (<[this := f]> (objects w)) w).
Hypothesis R_delete :
  ∀ w, R w (set_objects (delete this (objects w)) w).
Hypothesis R_new_session :
  ∀ w s,
    R w (set_sessions (<[fresh (dom (sessions w)) := s]> (sessions w)) w).

Lemma preserves_bind {A B} (m : M A) (k : A → M B) :
  preserves R m → (∀ a, preserves R (k a)) → preserves R (m ≫= k).
Proof.
  intros Hm Hk w. rewrite run_bind. specialize (Hm w).
  destruct (m w) as [a w' t|msg w' t|w' t]; cbn in *; [|done..].
  rewrite world_of_prepend. exact (R_trans _ _ _ Hm (Hk a w')).
Qed.

Lemma preserves_unchanged {A} (m : M A) :
  (∀ w, world_of (m w) = w) → preserves R m.
Proof. intros H w. rewrite H. apply R_refl. Qed.

Lemma preserves_ret {A} (a : A) : preserves R (mret a : M A).
Proof. by apply preserves_unchanged. Qed.

Lemma preserves_emit e : preserves R (emit e).
Proof. by apply preserves_unchanged. Qed.

Lemma preserves_deref {A} (x : option A) : preserves R (deref x).
Proof. apply preserves_unchanged. by destruct x. Qed.

Lemma preserves_CHECK cond msg : preserves R (CHECK cond msg).
Proof. apply preserves_unchanged. intros w. unfold CHECK. by destruct cond. Qed.

Lemma preserves_load a : preserves R (load a).
Proof.
  apply preserves_unchanged. intros w. unfold load. rewrite run_bind. cbn.
  by destruct (objects w !! a).
Qed.

Lemma preserves_loadSession s : preserves R (loadSession s).
Proof.
  apply preserves_unchanged. intros w. unfold loadSession.
  rewrite run_bind. cbn. by destruct (sessions w !! s).
Qed.

Lemma preserves_assign upd : preserves R (assign this upd).
Proof.
  apply preserves_bind; [apply preserves_load|]. intros f w. apply R_store.
Qed.

Lemma preserves_end_lifetime : preserves R (end_lifetime this).
Proof. intros w. apply R_delete. Qed.

Lemma preserves_make_Session device udfpsHandler userId cb lockoutTracker :
  preserves R (make_Session device udfpsHandler userId cb lockoutTracker).
Proof. intros w. apply R_new_session. Qed.

#[local] Hint Resolve preserves_ret preserves_emit preserves_deref
  preserves_CHECK preserves_load preserves_loadSession preserves_assign
  preserves_end_lifetime preserves_make_Session : frame.

Ltac framing :=
  unfold ALOGV, ALOGD, ALOGI, ALOGE;
  repeat match goal with
    | |- preserves R (_ ≫= _) => apply preserves_bind; [|intros]
    | |- preserves R (match ?x with _ => _ end) => destruct x
    | |- preserves R _ => solve [eauto with frame]
    end.

Lemma preserves_Fingerprint_dtor : preserves R (Fingerprint_dtor this).
Proof. unfold Fingerprint_dtor, Fingerprint_dtor_body. framing. Qed.


End Frame.

Lemma others_kept_store this w f :
  others_kept this w (set_objects (<[this := f]> (objects w)) w).
Proof. intros a Ha. cbn. by rewrite lookup_insert_ne. Qed.

Lemma others_kept_delete this w :
  others_kept this w (set_objects (delete this (objects w)) w).
Proof. intros a Ha. cbn. by rewrite lookup_delete_ne. Qed.

Lemma others_kept_trans this w1 w2 w3 :
  others_kept this w1 w2 → others_kept this w2 w3 → others_kept this w1 w3.
Proof. intros H12 H23 a Ha. by rewrite (H23 a Ha), (H12 a Ha). Qed.

(** X1: the destructor of one coordinator, however it ends, leaves
    every other coordinator exactly as it was. *)
Theorem destructor_leaves_others this w a :
  a ≠ this →
  objects (world_of (Fingerprint_dtor this w)) !! a = objects w !! a.
Proof.
  revert a.
  exact (preserves_Fingerprint_dtor this (others_kept this)
           (λ _ _ _, eq_refl) (others_kept_trans this)
           (others_kept_store this) (others_kept_delete this) w).
Qed.

Lemma destructor_leaves_others_witness :
  objects (world_of (Fingerprint_dtor 1%nat
                       {| sInstance := Some 1%nat;
                          objects :=
                            {[ 1%nat := Sample.fingerprint None
                                          (Some Sample.busy_device);
                               2%nat := Sample.fingerprint (Some 4%nat)
                                          (Some Sample.good_device) ]};
                          sessions := {[ 4%nat := Sample.session None false ]}
                       |})) !! 2%nat
  = Some (Sample.fingerprint (Some 4%nat) (Some Sample.good_device)).
Proof.
  rewrite (destructor_leaves_others 1%nat _ 2%nat); [reflexivity|lia].
Defined.



(** X3: for every world, also an ill-formed one, [notify] ends in one
    of three ways, each with the state unchanged: the event is dropped
    with the one log line, the event is handed once and unchanged to
    the coordinator's session, or a dangling pointer is read.  It never
    aborts and never delivers twice. *)
Theorem notify_outcomes msg w :
  notify msg w = Ret () w dropped ∨
  notify msg w = Fault w [] ∨
  ∃ a f s session,
    sInstance w = Some a ∧ objects w !! a = Some f ∧ mSession f = Some s ∧
    sessions w !! s = Some session ∧ isClosed session = false ∧
    notify msg w = Ret () w [Call_Session_notify s msg].
Proof.
  unfold notify. rewrite run_bind. cbn [getWorld prepend].
  destruct (sInstance w) as [a|] eqn:Ha; [|by left].
  destruct (objects w !! a) as [f|] eqn:Hf.
  - rewrite run_bind, (run_load _ _ _ Hf). cbn [prepend].
    destruct (mSession f) as [s|] eqn:Hs; [|by left].
    destruct (sessions w !! s) as [session|] eqn:Hss.
    + rewrite run_bind, (run_loadSession _ _ _ Hss). cbn [prepend].
      destruct (isClosed session) eqn:Hc; [by left|].
      right. right. by exists a, f, s, session.
    + right. left. unfold loadSession.
      rewrite !run_bind. cbn. by rewrite Hss.
  - right. left. by rewrite run_bind, (run_load_dangling _ _ Hf).
Qed.

(** ** The constructor and what follows it *)

(** X4: the constructor's outcome is a function of the platform's
    answers.  If the first candidate of [kModules] whose attempt does
    not end in a plain failure opens device [d], the constructor returns
    with that device; if every attempt fails it returns with a null
    device after asking for all seven classes; if that first candidate
    has a null [methods] pointer or reports success without a device,
    the constructor reads through a null pointer.  In each case the
    hardware library was asked for exactly the classes up to that
    candidate. *)
Theorem constructor_decided_by_probes p this w :
  ∃ t,
    attempted t = tried p kModules ∧
    match discover p kModules with
    | Opened d =>
        Fingerprint_ctor p this w =
        Ret () (constructed p this (Some d) w)
          (t ++ construction_tail p (Some d))
    | NotOpened =>
        Fingerprint_ctor p this w =
        Ret () (constructed p this None w) (t ++ construction_tail p None) ∧
        attempted t = class_name <$> kModules
    | NullDeref =>
        Fingerprint_ctor p this w = Fault (under_construction p this w) t
    end.
Proof.
  destruct (Fingerprint_ctor_outcome p this w) as (t & Hatt & Hrun).
  exists t. split; [exact Hatt|].
  destruct (discover p kModules) eqn:Hd; [exact Hrun| |exact Hrun].
  split; [exact Hrun|]. by rewrite Hatt, (tried_all _ _ Hd).
Qed.

(** X5: construction at [this], however it ends, leaves the session
    store and every other coordinator as they were. *)
Theorem constructor_leaves_others p this w :
  let w' := world_of (Fingerprint_ctor p this w) in
  sessions w' = sessions w ∧
  ∀ a, a ≠ this → objects w' !! a = objects w !! a.
Proof.
  destruct (Fingerprint_ctor_outcome p this w) as (t & _ & Hrun).
  cbn zeta. rewrite Hrun.
  destruct (discover p kModules); cbn;
    (split; [reflexivity|]; intros a Ha; by rewrite lookup_insert_ne).
Qed.

Lemma constructor_leaves_others_witness :
  objects (world_of (Fingerprint_ctor Sample.second_opens 2%nat
                       Sample.with_open_session)) !! 1%nat
  = Some (Sample.fingerprint (Some 4%nat) None).
Proof.
  rewrite (proj2 (constructor_leaves_others Sample.second_opens 2%nat
                    Sample.with_open_session) 1%nat); [reflexivity|lia].
Defined.

Lemma Fingerprint_dtor_body_returns this w f :
  objects w !! this = Some f →
  (is_Some (mUdfpsHandler f) → is_Some (mUdfpsHandlerFactory f)) →
  ∃ w' t,
    Fingerprint_dtor_body this w = Ret () w' t ∧
    close_calls t = option_list (mDevice f) ∧
    (∀ a, a ≠ this → objects w' !! a = objects w !! a).
Proof.
  intros Hf Hinv. rewrite (Fingerprint_dtor_body_run _ _ _ Hf Hinv).
  destruct (mDevice f) as [d|]; [case_bool_decide|];
    (eexists _, _; split; [reflexivity|]; split;
     [by cbn; rewrite close_calls_app, close_calls_udfps_teardown|]);
    try done.
  intros a Ha. cbn. by rewrite lookup_insert_ne.
Qed.

(** X6: a coordinator that the constructor returned can always be
    destroyed: the destructor returns normally, calls [close] exactly
    once on the device discovery found and not at all if it found none,
    ends the object's lifetime and leaves every other coordinator as it
    was before the construction. *)
Theorem constructed_then_destroyed p this w w1 t1 :
  Fingerprint_ctor p this w = Ret () w1 t1 →
  ∃ f w2 t2,
    objects w1 !! this = Some f ∧
    Fingerprint_dtor this w1 = Ret () w2 t2 ∧
    close_calls t2 = option_list (mDevice f) ∧
    objects w2 !! this = None ∧
    (∀ a, a ≠ this → objects w2 !! a = objects w !! a).
Proof.
  intros Hctor.
  destruct (Fingerprint_ctor_returns _ _ _ _ _ Hctor) as (d & t & -> & _).
  destruct (Fingerprint_dtor_body_returns this (constructed p this d w)
              (built p d) (lookup_constructed _ _ _ _)
              (built_handler_has_factory p d))
    as (w' & t2 & Hbody & Hcalls & Hothers).
  exists (built p d), (set_objects (delete this (objects w')) w'), t2.
  split; [apply lookup_constructed|].
  split; [exact (Fingerprint_dtor_run _ _ _ _ Hbody)|].
  split; [exact Hcalls|]. split; [apply lookup_delete_eq|].
  intros a Ha. cbn. rewrite lookup_delete_ne by done.
  rewrite (Hothers a Ha). cbn. by rewrite lookup_insert_ne.
Qed.

Lemma constructed_then_destroyed_witness :
  ∃ f w2 t2,
    objects (world_of (Fingerprint_ctor Sample.second_opens 1%nat
                         Sample.empty_world)) !! 1%nat = Some f ∧
    Fingerprint_dtor 1%nat
      (world_of (Fingerprint_ctor Sample.second_opens 1%nat
                   Sample.empty_world)) = Ret () w2 t2 ∧
    close_calls t2 = option_list (mDevice f) ∧
    objects w2 !! 1%nat = None ∧
    (∀ a, a ≠ 1%nat → objects w2 !! a = objects Sample.empty_world !! a).
Proof.
  apply (constructed_then_destroyed Sample.second_opens 1%nat
           Sample.empty_world _
           (trace_of (Fingerprint_ctor Sample.second_opens 1%nat
                        Sample.empty_world))).
  apply returns_eq. vm_compute. reflexivity.
Defined.

(** X7: on a coordinator that the constructor returned, the descriptor
    of [getSensorProps] does not depend on which backend was found: it
    allows [MAX_ENROLLMENTS_PER_USER] enrolments, has strength
    [STRONG], has sensor type [UNDER_DISPLAY_OPTICAL] exactly in a UDFPS
    build and [UNKNOWN] otherwise, and reports no navigation gestures,
    no interaction detection, no display-touch handling, no illumination
    control and no touch-detection parameters. *)
Theorem descriptor_after_construction p this w w1 t1 :
  Fingerprint_ctor p this w = Ret () w1 t1 →
  ∃ d t,
    getSensorProps p this w1 = Ret (STATUS_OK, [d]) w1 t ∧
    maxEnrollmentsPerUser (commonProps d) = 7 ∧
    sensorStrength (commonProps d) = STRONG ∧
    sensorType d
      = (if USES_UDFPS_SENSOR p then UNDER_DISPLAY_OPTICAL else UNKNOWN) ∧
    supportsNavigationGestures d = false ∧
    supportsDetectInteraction d = false ∧
    halHandlesDisplayTouches d = false ∧
    halControlsIllumination d = false ∧
    touchDetectionParameters d = None.
Proof.
  intros Hctor.
  destruct (Fingerprint_ctor_returns _ _ _ _ _ Hctor) as (dev & t & -> & _).
  rewrite (getSensorProps_run p this _ _ (lookup_constructed _ _ _ _)).
  cbn zeta. destruct (built_members p dev) as (_ & _ & _ & Hmax & Hg & Hty).
  eexists _, _. split; [reflexivity|]. cbn.
  by rewrite Hmax, Hg, Hty.
Qed.

Lemma descriptor_after_construction_witness :
  ∃ d t,
    getSensorProps (Sample.platform Sample.hal_second true 540 1620 95) 1%nat
      (world_of (Fingerprint_ctor
                   (Sample.platform Sample.hal_second true 540 1620 95)
                   1%nat Sample.empty_world))
    = Ret (STATUS_OK, [d])
        (world_of (Fingerprint_ctor
                     (Sample.platform Sample.hal_second true 540 1620 95)
                     1%nat Sample.empty_world)) t ∧
    maxEnrollmentsPerUser (commonProps d) = 7 ∧
    sensorStrength (commonProps d) = STRONG ∧
    sensorType d = UNDER_DISPLAY_OPTICAL ∧
    supportsNavigationGestures d = false ∧
    supportsDetectInteraction d = false ∧
    halHandlesDisplayTouches d = false ∧
    halControlsIllumination d = false ∧
    touchDetectionParameters d = None.
Proof.
  apply (descriptor_after_construction
           (Sample.platform Sample.hal_second true 540 1620 95) 1%nat
           Sample.empty_world _
           (trace_of (Fingerprint_ctor
                        (Sample.platform Sample.hal_second true 540 1620 95)
                        1%nat Sample.empty_world))).
  apply returns_eq. vm_compute. reflexivity.
Defined.

(** ** Sessions and notifications together *)







(** ** The location in either build *)

Lemma to_int32_in_range z : 0 ≤ z < 2 ^ 31 → to_int32 z = z.
Proof. intros H. unfold to_int32. rewrite Z.mod_small; lia. Qed.

(** X10: in a build without [USES_UDFPS_SENSOR] every call of
    [getSensorProps] logs the location failure with -1, -1, -1 and
    reports the default-constructed location. *)
Theorem location_without_udfps p this w f :
  USES_UDFPS_SENSOR p = false → objects w !! this = Some f →
  ∃ d,
    getSensorProps p this w
      = Ret (STATUS_OK, [d]) w
          [ALOG ERROR "Failed to get sensor location: %d, %d, %d"
             [ArgInt (-1); ArgInt (-1); ArgInt (-1)];
           ALOG INFO "Sensor type: %s, location: %s"
             [ArgSensorType (mSensorType f);
              ArgSensorLocation (SensorLocation_init p)]] ∧
    sensorLocations d = [SensorLocation_init p].
Proof.
  intros Hbuild Hf. rewrite (getSensorProps_run p _ _ _ Hf).
  unfold location_configured, location_x, location_y, location_r.
  rewrite Hbuild. cbn. eexists. split; reflexivity.
Qed.

Lemma location_without_udfps_witness :
  ∃ d,
    getSensorProps Sample.second_opens 1%nat Sample.with_good_device
      = Ret (STATUS_OK, [d]) Sample.with_good_device
          [ALOG ERROR "Failed to get sensor location: %d, %d, %d"
             [ArgInt (-1); ArgInt (-1); ArgInt (-1)];
           ALOG INFO "Sensor type: %s, location: %s"
             [ArgSensorType UNKNOWN;
              ArgSensorLocation (SensorLocation_init Sample.second_opens)]] ∧
    sensorLocations d = [SensorLocation_init Sample.second_opens].
Proof.
  apply (location_without_udfps Sample.second_opens 1%nat
           Sample.with_good_device
           (Sample.fingerprint None (Some Sample.good_device)));
    reflexivity.
Defined.

(** X11: in a UDFPS build whose three constants are non-negative and
    fit [int32_t], the descriptor's location is exactly the configured
    x, y and radius, and the call logs nothing but the summary line. *)
Theorem configured_location_reported p this w f :
  USES_UDFPS_SENSOR p = true →
  0 ≤ UDFPS_LOCATION_X p < 2 ^ 31 →
  0 ≤ UDFPS_LOCATION_Y p < 2 ^ 31 →
  0 ≤ UDFPS_RADIUS p < 2 ^ 31 →
  objects w !! this = Some f →
  ∃ d,
    getSensorProps p this w
      = Ret (STATUS_OK, [d]) w
          [ALOG INFO "Sensor type: %s, location: %s"
             [ArgSensorType (mSensorType f);
              ArgSensorLocation
                {| sensorLocationX := UDFPS_LOCATION_X p;
                   sensorLocationY := UDFPS_LOCATION_Y p;
                   sensorRadius := UDFPS_RADIUS p |}]] ∧
    sensorLocations d
      = [ {| sensorLocationX := UDFPS_LOCATION_X p;
             sensorLocationY := UDFPS_LOCATION_Y p;
             sensorRadius := UDFPS_RADIUS p |} ].
Proof.
  intros Hbuild Hx Hy Hr Hf. rewrite (getSensorProps_run p _ _ _ Hf).
  assert (location_configured p = true) as Hcfg.
  { apply location_configured_spec.
    unfold location_x, location_y, location_r. rewrite Hbuild.
    rewrite !to_int32_in_range by done. lia. }
  rewrite Hcfg. unfold location_x, location_y, location_r. rewrite Hbuild.
  rewrite !to_int32_in_range by done. cbn. eexists. split; reflexivity.
Qed.

Lemma configured_location_reported_witness :
  ∃ d,
    getSensorProps (Sample.platform Sample.hal_second true 540 1620 95) 1%nat
      Sample.with_good_device
      = Ret (STATUS_OK, [d]) Sample.with_good_device
          [ALOG INFO "Sensor type: %s, location: %s"
             [ArgSensorType UNKNOWN;
              ArgSensorLocation
                {| sensorLocationX := 540; sensorLocationY := 1620;
                   sensorRadius := 95 |}]] ∧
    sensorLocations d
      = [ {| sensorLocationX := 540; sensorLocationY := 1620;
             sensorRadius := 95 |} ].
Proof.
  apply (configured_location_reported
           (Sample.platform Sample.hal_second true 540 1620 95) 1%nat
           Sample.with_good_device
           (Sample.fingerprint None (Some Sample.good_device)));
    first [reflexivity | cbn; lia].
Defined.

(** ** Who calls [close], and the display handler *)

Lemma emits_init_udfps P p this :
  (∀ e, not_close e → P e) → emits_only P (init_udfps p this).
Proof.
  intros HP. unfold init_udfps, ALOGV, ALOGD, ALOGI, ALOGE.
  repeat match goal with
    | |- emits_only _ (_ ≫= _) => apply emits_bind; [|intros]
    | |- emits_only _ (emit _) => apply emits_emit, HP; exact I
    | |- emits_only _ (match ?x with _ => _ end) => destruct x
    | |- emits_only _ _ => solve [eauto with emits]
    end.
Qed.

Ltac emitting_ctor :=
  unfold Fingerprint_ctor, ALOGV, ALOGD, ALOGI, ALOGE;
  repeat match goal with
    | |- emits_only _ (_ ≫= _) => apply emits_bind; [|intros]
    | |- emits_only _ (open_modules _ _ _) =>
        apply emits_open_modules; by intros []
    | |- emits_only _ (init_udfps _ _) =>
        apply emits_init_udfps; by intros []
    | |- emits_only _ (emit _) => apply emits_emit; exact I
    | |- emits_only _ (match ?x with _ => _ end) => destruct x
    | |- emits_only _ _ => solve [eauto with emits]
    end.

Lemma Fingerprint_ctor_never_closes p this :
  emits_only not_close (Fingerprint_ctor p this).
Proof. emitting_ctor. Qed.

Lemma Fingerprint_ctor_without_udfps p this :
  USES_UDFPS_SENSOR p = false →
  emits_only not_udfps (Fingerprint_ctor p this).
Proof. intros Hbuild. unfold Fingerprint_ctor. rewrite Hbuild. emitting_ctor. Qed.

(** X12: [close] is called by the destructor only: the constructor,
    [notify], [getSensorProps] and [createSession] never call it,
    however they end.  In particular a candidate whose [open] succeeded
    with device [d] but whose callback registration failed is given up
    by [openHal] with [d] left open. *)
Theorem close_only_in_destructor :
  (∀ p this w, close_calls (trace_of (Fingerprint_ctor p this w)) = []) ∧
  (∀ msg w, close_calls (trace_of (notify msg w)) = []) ∧
  (∀ p this w, close_calls (trace_of (getSensorProps p this w)) = []) ∧
  (∀ this sensorId userId cb w,
     close_calls (trace_of (createSession this sensorId userId cb w)) = []) ∧
  (∀ p cls module meths d w,
     hw_get_module_by_class p (FINGERPRINT_HARDWARE_MODULE_ID p) cls
       = (0, Some module) →
     methods module = Some meths → open meths = Some (0, Some d) →
     set_notify d ≠ 0 →
     ∃ t, openHal p cls w = Ret None w t ∧
          Call_open module ∈ t ∧ Call_set_notify d ∈ t ∧
          close_calls t = []).
Proof.
  split; [|split; [|split; [|split]]].
  - intros. apply close_calls_none, Fingerprint_ctor_never_closes.
  - intros msg w. apply close_calls_none.
    assert (emits_only not_close (notify msg)) as H; [|apply H].
    unfold notify. emitting.
  - intros p this w. apply close_calls_none.
    assert (emits_only not_close (getSensorProps p this)) as H; [|apply H].
    unfold getSensorProps. emitting.
  - intros this sensorId userId cb w. apply close_calls_none.
    assert (emits_only not_close (createSession this sensorId userId cb))
      as H; [|apply H].
    unfold createSession, no_open_session. emitting.
  - intros p cls module meths d w Hget Hmeths Hopen Hnotify.
    unfold openHal. msimpl. rewrite Hget.
    rewrite bool_decide_eq_false_2 by (intros H; by apply H).
    rewrite Hmeths. msimpl. rewrite Hopen. msimpl.
    rewrite bool_decide_eq_false_2 by (intros H; by apply H).
    msimpl. rewrite bool_decide_eq_true_2 by done. msimpl.
    eexists. split; [reflexivity|].
    split; [|split; [|reflexivity]]; set_solver.
Qed.

Lemma close_only_in_destructor_witness :
  ∃ t, openHal
         (Sample.platform
            (λ _, (0, Some (Sample.module_opening (Sample.device 7 (-1) 0))))
            false 0 0 0)
         "fpc" Sample.empty_world = Ret None Sample.empty_world t ∧
       Call_open (Sample.module_opening (Sample.device 7 (-1) 0)) ∈ t ∧
       Call_set_notify (Sample.device 7 (-1) 0) ∈ t ∧
       close_calls t = [].
Proof.
  apply (proj2 (proj2 (proj2 (proj2 close_only_in_destructor)))
           (Sample.platform
              (λ _, (0, Some (Sample.module_opening (Sample.device 7 (-1) 0))))
              false 0 0 0)
           "fpc" (Sample.module_opening (Sample.device 7 (-1) 0))
           {| open := Some (0, Some (Sample.device 7 (-1) 0)) |}
           (Sample.device 7 (-1) 0) Sample.empty_world);
    first [reflexivity | cbn; lia].
Defined.

(** X13: in a UDFPS build whose factory creates handler [h], a
    constructor that returns has called the handler's [init] with
    whatever discovery found, a null device included, and the
    destructor destroys [h] through the factory before it looks at the
    device. *)
Theorem udfps_handler_lifecycle p this w w1 t1 factory h :
  USES_UDFPS_SENSOR p = true →
  getUdfpsHandlerFactory p = Some factory → create factory = Some h →
  Fingerprint_ctor p this w = Ret () w1 t1 →
  ∃ f w2 rest,
    objects w1 !! this = Some f ∧ mUdfpsHandler f = Some h ∧
    last t1 = Some (Call_UdfpsHandler_init h (mDevice f)) ∧
    Fingerprint_dtor this w1 =
      Ret () w2
        (ALOG VERBOSE "~Fingerprint()" [] ::
         Call_UdfpsHandlerFactory_destroy factory h :: rest) ∧
    close_calls rest = option_list (mDevice f).
Proof.
  intros Hbuild Hfactory Hcreate Hctor.
  destruct (Fingerprint_ctor_returns _ _ _ _ _ Hctor)
    as (d & t & -> & -> & _).
  pose proof (lookup_constructed p this d w) as Hf.
  destruct (built_handler p d) as [Hh Hfac].
  destruct (built_members p d) as (_ & Hd & _).
  rewrite Hbuild, Hfactory in Hh, Hfac. cbn in Hh. rewrite Hcreate in Hh.
  pose proof (Fingerprint_dtor_body_run _ _ _ Hf
                (built_handler_has_factory p d)) as Hbody.
  unfold udfps_teardown in Hbody. rewrite Hh, Hfac, Hd in Hbody.
  exists (built p d).
  assert (last (t ++ construction_tail p d)
          = Some (Call_UdfpsHandler_init h d)) as Hlast.
  { unfold construction_tail, udfps_trace.
    rewrite Hbuild, Hfactory, Hcreate.
    set (pre := match d with
                | None => [ALOG ERROR "Can't open any HAL module" []]
                | Some _ => []
                end).
    replace (t ++ pre ++
             [ALOG INFO "UNDER_DISPLAY_OPTICAL selected" [];
              Call_UdfpsHandlerFactory_create factory;
              Call_UdfpsHandler_init h d])
      with ((t ++ pre ++
             [ALOG INFO "UNDER_DISPLAY_OPTICAL selected" [];
              Call_UdfpsHandlerFactory_create factory]) ++
            [Call_UdfpsHandler_init h d])
      by (by rewrite <- !app_assoc).
    apply last_snoc. }
  destruct d as [dev|]; [case_bool_decide|];
    (eexists _, _; split; [exact Hf|]; split; [exact Hh|];
     split; [by rewrite Hd|]; split;
     [exact (Fingerprint_dtor_run _ _ _ _ Hbody)|by rewrite Hd]).
Qed.

Lemma udfps_handler_lifecycle_witness :
  ∃ f w2 rest,
    objects (world_of (Fingerprint_ctor
                         (Sample.platform Sample.hal_none true 540 1620 95)
                         1%nat Sample.empty_world)) !! 1%nat = Some f ∧
    mUdfpsHandler f = Some {| handler_id := 3 |} ∧
    last (trace_of (Fingerprint_ctor
                      (Sample.platform Sample.hal_none true 540 1620 95)
                      1%nat Sample.empty_world))
      = Some (Call_UdfpsHandler_init {| handler_id := 3 |} (mDevice f)) ∧
    Fingerprint_dtor 1%nat
      (world_of (Fingerprint_ctor
                   (Sample.platform Sample.hal_none true 540 1620 95)
                   1%nat Sample.empty_world)) =
      Ret () w2
        (ALOG VERBOSE "~Fingerprint()" [] ::
         Call_UdfpsHandlerFactory_destroy
           {| create := Some {| handler_id := 3 |} |}
           {| handler_id := 3 |} :: rest) ∧
    close_calls rest = option_list (mDevice f).
Proof.
  refine (udfps_handler_lifecycle
            (Sample.platform Sample.hal_none true 540 1620 95) 1%nat
            Sample.empty_world
            (world_of (Fingerprint_ctor
                         (Sample.platform Sample.hal_none true 540 1620 95)
                         1%nat Sample.empty_world))
            (trace_of (Fingerprint_ctor
                         (Sample.platform Sample.hal_none true 540 1620 95)
                         1%nat Sample.empty_world))
            {| create := Some {| handler_id := 3 |} |}
            {| handler_id := 3 |} eq_refl eq_refl eq_refl _).
  apply returns_eq. vm_compute. reflexivity.
Defined.

(** X14: in a build without [USES_UDFPS_SENSOR] the constructor,
    however it ends, makes no call to the display handler or its
    factory; a coordinator it returned holds neither, and its
    destructor makes no such call either. *)
Theorem no_handler_without_udfps p this w :
  USES_UDFPS_SENSOR p = false →
  Forall not_udfps (trace_of (Fingerprint_ctor p this w)) ∧
  (∀ w1 t1,
     Fingerprint_ctor p this w = Ret () w1 t1 →
     ∃ f w2 t2,
       objects w1 !! this = Some f ∧
       mUdfpsHandler f = None ∧ mUdfpsHandlerFactory f = None ∧
       Fingerprint_dtor this w1 = Ret () w2 t2 ∧ Forall not_udfps t2).
Proof.
  intros Hbuild. split; [by apply Fingerprint_ctor_without_udfps|].
  intros w1 t1 Hctor.
  destruct (Fingerprint_ctor_returns _ _ _ _ _ Hctor) as (d & t & -> & _).
  pose proof (lookup_constructed p this d w) as Hf.
  destruct (built_handler p d) as [Hh Hfac].
  destruct (built_members p d) as (_ & Hd & _).
  rewrite Hbuild in Hh, Hfac.
  pose proof (Fingerprint_dtor_body_run _ _ _ Hf
                (built_handler_has_factory p d)) as Hbody.
  unfold udfps_teardown in Hbody. rewrite Hh, Hd in Hbody.
  exists (built p d).
  destruct d as [dev|]; [case_bool_decide|];
    (eexists _, _; split; [exact Hf|]; split; [exact Hh|];
     split; [exact Hfac|]; split;
     [exact (Fingerprint_dtor_run _ _ _ _ Hbody)|by repeat constructor]).
Qed.

Lemma no_handler_without_udfps_witness :
  Forall not_udfps
    (trace_of (Fingerprint_ctor Sample.second_opens 1%nat
                 Sample.empty_world)) ∧
  ∃ f w2 t2,
    objects (world_of (Fingerprint_ctor Sample.second_opens 1%nat
                         Sample.empty_world)) !! 1%nat = Some f ∧
    mUdfpsHandler f = None ∧ mUdfpsHandlerFactory f = None ∧
    Fingerprint_dtor 1%nat
      (world_of (Fingerprint_ctor Sample.second_opens 1%nat
                   Sample.empty_world)) = Ret () w2 t2 ∧
    Forall not_udfps t2.
Proof.
  destruct (no_handler_without_udfps Sample.second_opens 1%nat
              Sample.empty_world eq_refl) as [Hctor Hdtor].
  split; [exact Hctor|].
  apply (Hdtor _ (trace_of (Fingerprint_ctor Sample.second_opens 1%nat
                              Sample.empty_world))).
  apply returns_eq. vm_compute. reflexivity.
Defined.

(** ** The most recent instance *)

(** X15: [sInstance] follows the most recent construction.  When a
    coordinator at [a] has an open session and a second coordinator is
    constructed at another address, the first coordinator and its
    session are untouched, yet a notification that arrives next is
    dropped: it is looked up on the new coordinator, which has no
    session. *)
Theorem second_instance_takes_notifications p a b w f s session w1 t1 msg :
  a ≠ b →
  objects w !! a = Some f → mSession f = Some s →
  sessions w !! s = Some session → isClosed session = false →
  Fingerprint_ctor p b w = Ret () w1 t1 →
  objects w1 !! a = Some f ∧ sessions w1 !! s = Some session ∧
  sInstance w1 = Some b ∧
  notify msg w1 = Ret () w1 dropped.
Proof.
  intros Hne Hf Hs Hss Hopen Hctor.
  destruct (Fingerprint_ctor_returns _ _ _ _ _ Hctor) as (d & t & -> & _).
  split; [by cbn; rewrite lookup_insert_ne|].
  split; [exact Hss|]. split; [reflexivity|].
  destruct (built_members p d) as (Hnone & _).
  unfold notify. rewrite run_bind. cbn [getWorld prepend constructed sInstance].
  rewrite run_bind, (run_load _ _ _ (lookup_constructed p b d w)).
  cbn [prepend]. by rewrite Hnone.
Qed.

Lemma second_instance_takes_notifications_witness :
  objects (world_of (Fingerprint_ctor Sample.second_opens 2%nat
                       Sample.with_open_session)) !! 1%nat
    = Some (Sample.fingerprint (Some 4%nat) None) ∧
  sessions (world_of (Fingerprint_ctor Sample.second_opens 2%nat
                        Sample.with_open_session)) !! 4%nat
    = Some (Sample.session None false) ∧
  sInstance (world_of (Fingerprint_ctor Sample.second_opens 2%nat
                         Sample.with_open_session)) = Some 2%nat ∧
  notify Sample.message
    (world_of (Fingerprint_ctor Sample.second_opens 2%nat
                 Sample.with_open_session))
  = Ret ()
      (world_of (Fingerprint_ctor Sample.second_opens 2%nat
                   Sample.with_open_session)) dropped.
Proof.
  apply (second_instance_takes_notifications Sample.second_opens
           1%nat 2%nat Sample.with_open_session
           (Sample.fingerprint (Some 4%nat) None) 4%nat
           (Sample.session None false) _
           (trace_of (Fingerprint_ctor Sample.second_opens 2%nat
                        Sample.with_open_session)));
    first [lia | reflexivity | apply returns_eq; vm_compute; reflexivity].
Defined.
